(** * MySQLHandler: a shallow embedding of [mysql_handler.py]

    The handler is glue around three libraries: the MySQL client
    ([mysql.connector]), [pandas] and [sqlalchemy].  Every call into the client
    or into [sqlalchemy] is an external [call] whose answer (a value or a
    raised exception) is chosen by the environment; the handler's methods are
    finite interaction trees over these calls, threaded through the store of
    handler objects.  [pandas] frames are pure data and are modelled
    directly. *)

From Stdlib Require Import ZArith String List DecimalString Lia.
From stdpp Require Import gmap strings list fin_maps.

Local Open Scope Z_scope.
Local Open Scope string_scope.

(** ** Python values and exceptions *)

(** The values the constructor's keyword arguments and the cells of a row can
    hold. *)
Inductive pyval : Type :=
| PNone
| PBool (b : bool)
| PInt (z : Z)
| PStr (s : string).

#[global] Instance pyval_eq_dec : EqDecision pyval.
Proof. solve_decision. Defined.

(** [str(v)], as an f-string renders [v]. *)
Definition py_str (v : pyval) : string :=
  match v with
  | PNone => "None"
  | PBool true => "True"
  | PBool false => "False"
  | PInt z => NilZero.string_of_int (Z.to_int z)
  | PStr s => s
  end.

(** [v is True]: identity with the singleton [True]. *)
Definition is_True (v : pyval) : bool :=
  match v with
  | PBool true => true
  | _ => false
  end.

(** [v is not None]. *)
Definition is_not_None (v : pyval) : bool :=
  match v with
  | PNone => false
  | _ => true
  end.

(** [bool(v)]: the truth value an [if v:] tests. *)
Definition py_truthy (v : pyval) : bool :=
  match v with
  | PNone => false
  | PBool b => b
  | PInt z => negb (z =? 0)%Z
  | PStr s => negb (String.eqb s "")
  end.

(** An exception object: its class and [str(e)].  Every exception of the
    model is a subclass of [Exception], which is what the handler's
    [except Exception] clauses catch. *)
Record exn : Type := PyExc { exc_class : string; exc_msg : string }.

#[global] Instance exn_eq_dec : EqDecision exn.
Proof. solve_decision. Defined.

(** [Exception(msg)], as the handler itself raises it. *)
Definition Exception (msg : string) : exn := PyExc "Exception" msg.
Definition AttributeError (msg : string) : exn := PyExc "AttributeError" msg.
Definition IndexError (msg : string) : exn := PyExc "IndexError" msg.
Definition KeyError (msg : string) : exn := PyExc "KeyError" msg.
Definition ValueError (msg : string) : exn := PyExc "ValueError" msg.
Definition TypeError (msg : string) : exn := PyExc "TypeError" msg.

(** What a Python call produces: a value or a raised exception. *)
Inductive outcome (A : Type) : Type :=
| Okv (a : A)
| Exn (e : exn).
Arguments Okv {A} a.
Arguments Exn {A} e.

(** ** Rows and frames *)

(** A row of a dictionary cursor: column name to value, in column order. *)
Definition row : Type := list (string * pyval).

(** What [run_native_query] returns: the fetched rows, or [True] when the
    statement had nothing to fetch. *)
Inductive result : Type :=
| ResTrue
| ResRows (rows : list row).

(** A [pandas.DataFrame]: column labels, row labels and the cells row by
    row ([PNone] stands for a missing cell, NaN). *)
Record DataFrame : Type := mkDataFrame {
  columns : list string;
  index : list Z;
  data : list (list pyval)
}.

#[global] Instance DataFrame_eq_dec : EqDecision DataFrame.
Proof. solve_decision. Defined.

(** ** External calls *)

Definition conn : Type := nat.
Definition cursor : Type := nat.
Definition engine : Type := nat.

(** A value of the keyword dictionary passed to [mysql.connector.connect]. *)
Inductive cfgval : Type :=
| CfgVal (v : pyval)
| CfgFlags (flags : list Z).

#[global] Instance cfgval_eq_dec : EqDecision cfgval.
Proof. solve_decision. Defined.

(** [mysql.connector.constants.ClientFlag.SSL]. *)
Definition ClientFlag_SSL : Z := Z.shiftl 1 11.

Inductive call : Type :=
| MysqlConnect (config : gmap string cfgval)  (* mysql.connector.connect, keywords from config *)
| IsConnected (con : conn)                    (* con.is_connected() *)
| Close (con : conn)                          (* con.close() *)
| Cursor (con : conn)                         (* con.cursor(dictionary=True, buffered=True) *)
| Execute (cur : cursor) (operation : string) (* cur.execute(operation) *)
| Fetchall (cur : cursor)                     (* cur.fetchall() *)
| Commit (con : conn)                         (* con.commit() *)
| CreateEngine (url : string)                 (* create_engine(url, echo=False) *)
| ToSql (df : DataFrame) (table : string) (eng : engine)
                                              (* df.to_sql(table, con=eng, if_exists='append', index=False) *)
| Print (msg : string).                       (* print(msg) *)

(** The type of the value a call returns when it does not raise. *)
Definition reply (c : call) : Type :=
  match c with
  | MysqlConnect _ => conn
  | IsConnected _ => bool
  | Close _ => unit
  | Cursor _ => cursor
  | Execute _ _ => unit
  | Fetchall _ => list row
  | Commit _ => unit
  | CreateEngine _ => engine
  | ToSql _ _ _ => unit
  | Print _ => unit
  end.

(** ** Interaction trees over the external calls *)

Inductive io (X : Type) : Type :=
| Done (x : X)
| Call (c : call) (k : outcome (reply c) -> io X).
Arguments Done {X} x.
Arguments Call {X} c k.

Fixpoint io_bind {X Y : Type} (p : io X) (f : X -> io Y) : io Y :=
  match p with
  | Done x => f x
  | Call c k => Call c (fun o => io_bind (k o) f)
  end.

(** ** The handler object and the object store *)

Record MySQLHandler : Type := mkHandler {
  name : string;
  connection : option conn;       (* None until connect() has assigned it *)
  host : pyval;
  port : pyval;
  user : pyval;
  database : pyval;
  password : pyval;
  ssl : pyval;
  ssl_ca : pyval;
  ssl_cert : pyval;
  ssl_key : pyval
}.

(** [self.connection = c]. *)
Definition set_connection (c : conn) (o : MySQLHandler) : MySQLHandler :=
  {| name := name o; connection := Some c;
     host := host o; port := port o; user := user o; database := database o;
     password := password o; ssl := ssl o; ssl_ca := ssl_ca o;
     ssl_cert := ssl_cert o; ssl_key := ssl_key o |}.

(** The objects alive, by identity: two references to one handler share its
    [connection] attribute. *)
Abbreviation heap := (gmap nat MySQLHandler).

(** A method body: it reads and updates the store, calls out, and returns or
    raises. *)
Definition M (A : Type) : Type := heap -> io (heap * outcome A).

Definition ret {A} (a : A) : M A := fun h => Done (h, Okv a).

Definition raise {A} (e : exn) : M A := fun h => Done (h, Exn e).

Definition bind {A B} (m : M A) (f : A -> M B) : M B :=
  fun h => io_bind (m h) (fun hr =>
    match snd hr with
    | Okv a => f a (fst hr)
    | Exn e => Done (fst hr, Exn e)
    end).

(** [try: m  except Exception as e: handler e]. *)
Definition try_except {A} (m : M A) (handler : exn -> M A) : M A :=
  fun h => io_bind (m h) (fun hr =>
    match snd hr with
    | Okv a => Done (fst hr, Okv a)
    | Exn e => handler e (fst hr)
    end).

(** An external call: its outcome, value or exception, is the environment's. *)
Definition extern (c : call) : M (reply c) := fun h => Call c (fun o => Done (h, o)).

(** Reading the attributes of [self]. *)
Definition this (self : nat) : M MySQLHandler :=
  fun h =>
    match h !! self with
    | Some o => Done (h, Okv o)
    | None => Done (h, Exn (PyExc "ReferenceError" "no such object"))
    end.

(** Updating the attributes of [self] in place. *)
Definition update (self : nat) (f : MySQLHandler -> MySQLHandler) : M unit :=
  fun h => Done (alter f self h, Okv tt).

Declare Scope py_scope.
Delimit Scope py_scope with py.
Notation "x <- m ;; k" := (bind m (fun x => k))
  (at level 100, m at next level, right associativity) : py_scope.
Notation "m ;;; k" := (bind m (fun _ => k))
  (at level 100, right associativity) : py_scope.
Local Open Scope py_scope.

(** Method calls on a possibly-[None] connection attribute. *)
Definition on_conn {A} (attr : string) (con : option conn) (f : conn -> M A) : M A :=
  match con with
  | Some c => f c
  | None => raise (AttributeError ("'NoneType' object has no attribute '" +:+ attr +:+ "'"))
  end.

(** [with closing(thing) as con: body con].  [close()] runs on the way out
    whether the body returned or raised; an exception of [close()] replaces
    the body's result. *)
Definition with_closing {A} (thing : option conn) (body : option conn -> M A) : M A :=
  fun h => io_bind (body thing h) (fun hr =>
    io_bind (on_conn "close" thing (fun c => extern (Close c)) (fst hr)) (fun hc =>
      match snd hc with
      | Okv _ => Done (fst hc, snd hr)
      | Exn e => Done (fst hc, Exn e)
      end)).

(** ** MySQLHandler.connect *)

(** The [config] dictionary [connect] builds. *)
Definition connect_config (o : MySQLHandler) : gmap string cfgval :=
  let config : gmap string cfgval :=
    <["password" := CfgVal (password o)]>
      (<["user" := CfgVal (user o)]>
        (<["port" := CfgVal (port o)]>
          (<["host" := CfgVal (host o)]> ∅))) in
  if is_True (ssl o) then
    let config := <["client_flags" := CfgFlags [ClientFlag_SSL]]> config in
    let config := if is_not_None (ssl_ca o)
                  then <["ssl_ca" := CfgVal (ssl_ca o)]> config else config in
    let config := if is_not_None (ssl_cert o)
                  then <["ssl_cert" := CfgVal (ssl_cert o)]> config else config in
    let config := if is_not_None (ssl_key o)
                  then <["ssl_key" := CfgVal (ssl_key o)]> config else config in
    config
  else config.

Definition connect (self : nat) : M conn :=
  o <- this self ;;
  c <- extern (MysqlConnect (connect_config o)) ;;
  update self (set_connection c) ;;;
  ret c.

(** ** MySQLHandler.check_status *)

Definition check_status (self : nat) : M bool :=
  try_except
    (o <- this self ;;
     with_closing (connection o) (fun con =>
       on_conn "is_connected" con (fun c => extern (IsConnected c))))
    (fun _ => ret false).

(** ** MySQLHandler.run_native_query *)

(** The message of the exception [run_native_query] raises for [e]. *)
Definition query_error_msg (e : exn) : string :=
  "Error: " +:+ exc_msg e +:+ ". Please check and retry!".

(** The body of the [with closing(self.connection) as con:] block. *)
Definition query_block (o : MySQLHandler) (query_str : string) (con : option conn) : M result :=
  cur <- on_conn "cursor" con (fun c => extern (Cursor c)) ;;
  extern (Execute cur ("USE " +:+ py_str (database o) +:+ ";")) ;;;
  extern (Execute cur query_str) ;;;
  res <- try_except (rows <- extern (Fetchall cur) ;; ret (ResRows rows))
                    (fun _ => ret ResTrue) ;;
  on_conn "commit" con (fun c => extern (Commit c)) ;;;
  ret res.

(** Lines 60-61: [if not self.check_status(): self.connect()]. *)
Definition reconnect_if_needed (self : nat) : M unit :=
  alive <- check_status self ;;
  if negb alive then (connect self ;;; ret tt) else ret tt.

(** Lines 62-75: the guarded block and its [except] clause. *)
Definition guarded_query (self : nat) (query_str : string) : M result :=
  try_except
    (o <- this self ;;
     with_closing (connection o) (query_block o query_str))
    (fun e => raise (Exception (query_error_msg e))).

Definition run_native_query (self : nat) (query_str : string) : M result :=
  reconnect_if_needed self ;;;
  guarded_query self query_str.

(** ** get_tables, get_views, describe_table *)

Definition get_tables (self : nat) : M result :=
  run_native_query self "SHOW TABLES;".

Definition get_views (self : nat) : M result :=
  o <- this self ;;
  run_native_query self
    ("SHOW FULL TABLES IN " +:+ py_str (database o) +:+ " WHERE TABLE_TYPE LIKE 'VIEW';").

Definition describe_table (self : nat) (table_name : string) : M result :=
  run_native_query self ("DESCRIBE " +:+ table_name +:+ ";").

(** ** The parsed statement

    The parser's nodes are observed only through the attributes the handler
    reads: [str(node)] of a target or a predicate, [parts] of a table
    reference, [left] and [right] of a join expression. *)

Record Expr : Type := mkExpr { expr_str : string }.

Record Identifier : Type := mkIdentifier { parts : list string }.

Record JoinExpr : Type := mkJoinExpr { join_left : Identifier; join_right : Identifier }.

Record Select : Type := mkSelect {
  targets : list Expr;
  from_table : JoinExpr;
  where_ : option Expr
}.

(** [l[-1]]. *)
Definition py_last {A} (l : list A) : M A :=
  match List.rev l with
  | x :: _ => ret x
  | [] => raise (IndexError "list index out of range")
  end.

(** ** MySQLHandler.select_query *)

(** [if where_stmt:] holds for every node and fails for [None]. *)
Definition select_query (self : nat) (targets : list Expr) (from_stmt : Identifier)
    (where_stmt : option Expr) : M result :=
  table <- py_last (parts from_stmt) ;;
  let query := "SELECT " +:+ String.concat "," (map expr_str targets) +:+ " FROM " +:+ table in
  let query := match where_stmt with
               | Some w => query +:+ " WHERE " +:+ expr_str w
               | None => query
               end in
  run_native_query self query.

(** ** MySQLHandler.select_into *)

Definition engine_url (o : MySQLHandler) : string :=
  "mysql://" +:+ py_str (host o) +:+ ":" +:+ py_str (port o) +:+ "/" +:+ py_str (database o).

Definition select_into (self : nat) (table : string) (dataframe : DataFrame) : M bool :=
  try_except
    (o <- this self ;;
     con <- extern (CreateEngine (engine_url o)) ;;
     extern (ToSql dataframe table con) ;;;
     ret true)
    (fun e =>
       extern (Print (exc_msg e)) ;;;
       raise (Exception ("Could not select into table " +:+ table +:+ ", aborting."))).

(** ** The pandas calls of [join] *)

(** Column labels of a list of records: every key, in order of first
    appearance. *)
Definition add_label (acc : list string) (c : string) : list string :=
  if decide (c ∈ acc) then acc else (acc ++ [c])%list.

Definition record_labels (rows : list row) : list string :=
  fold_left add_label (concat (map (map fst) rows)) [].

Fixpoint row_get (r : row) (c : string) : pyval :=
  match r with
  | [] => PNone
  | (k, v) :: r' => if decide (k = c) then v else row_get r' c
  end.

(** [pd.DataFrame.from_records(data)]: a frame with the default row labels
    0, 1, 2, ...; [True] is no sequence of records. *)
Definition from_records (data : result) : outcome DataFrame :=
  match data with
  | ResTrue => Exn (TypeError "object of type 'bool' has no len()")
  | ResRows rows =>
      let cols := record_labels rows in
      Okv {| columns := cols;
             index := map Z.of_nat (seq 0 (List.length rows));
             data := map (fun r => map (row_get r) cols) rows |}
  end.

(** Position of the first occurrence of a label. *)
Fixpoint position (c : string) (l : list string) : option nat :=
  match l with
  | [] => None
  | x :: l' => if decide (x = c) then Some 0%nat else S <$> position c l'
  end.

(** Labels of one side after the overlapping ones got the side's suffix. *)
Definition with_suffix (mine theirs : list string) (suffix : string) : list string :=
  map (fun c => if decide (c ∈ theirs) then c +:+ suffix else c) mine.

(** The row of [other] whose row label equals the key cell [v]. *)
Fixpoint labelled_row (labels : list Z) (rows : list (list pyval)) (v : pyval)
    : option (list pyval) :=
  match labels, rows with
  | l :: labels', r :: rows' =>
      if decide (v = PInt l) then Some r else labelled_row labels' rows' v
  | _, _ => None
  end.

(** Whether a cell is a string, an integer. *)
Definition is_text (v : pyval) : bool :=
  match v with
  | PStr _ => true
  | _ => false
  end.

Definition is_int (v : pyval) : bool :=
  match v with
  | PInt _ => true
  | _ => false
  end.

(** A key column of text: it has a string cell and no integer cell. *)
Definition text_key (cells : list pyval) : bool :=
  existsb is_text cells && negb (existsb is_int cells).

(** [self.join(other, on=on, lsuffix=lsuffix, rsuffix=rsuffix)], a left join:
    the key column(s) [on] of the caller are matched against the ROW LABELS
    (the index) of [other], which has one level here, so [on] must name one
    column, and that column must exist; a key column of text cannot be
    merged with the integer labels of a frame that has rows, and raises;
    otherwise every row of the caller is kept, extended by the row of
    [other] carrying that label or by missing cells; labels on both sides
    get the suffixes.  The row labels of [other] are distinct (they come
    from [from_records]).  A number stands for its value: whether pandas
    stores a column as integers or, once it has missing cells, as floats is
    not part of the model. *)
Definition df_join (self other : DataFrame) (on : list string) (lsuffix rsuffix : string)
    : outcome DataFrame :=
  match on with
  | [key] =>
      match position key (columns self) with
      | None => Exn (KeyError key)
      | Some i =>
          if text_key (map (fun r => nth i r PNone) (data self))
             && negb (Nat.eqb (List.length (index other)) 0)
          then Exn (ValueError
                 "You are trying to merge on object and int64 columns. If you wish to proceed you should use pd.concat")
          else
          Okv {| columns := (with_suffix (columns self) (columns other) lsuffix
                             ++ with_suffix (columns other) (columns self) rsuffix)%list;
                 index := index self;
                 data := map (fun r =>
                           (r ++ match labelled_row (index other) (data other) (nth i r PNone) with
                                 | Some r' => r'
                                 | None => map (fun _ => PNone) (columns other)
                                 end)%list) (data self) |}
      end
  | _ => Exn (ValueError
           "len(left_on) must equal the number of levels in the index of 'right'")
  end.

(** Lifting a pure library call that may raise. *)
Definition pure_call {A} (o : outcome A) : M A :=
  match o with
  | Okv a => ret a
  | Exn e => raise e
  end.

(** ** MySQLHandler.join *)

(** What [join] needs of the other handler: its [select_query] method. *)
Record DatabaseHandler : Type := mkDatabaseHandler {
  dh_select_query : list Expr -> Identifier -> option Expr -> M result
}.

(** A [MySQLHandler] object seen as a [DatabaseHandler]. *)
Definition as_handler (obj : nat) : DatabaseHandler :=
  {| dh_select_query := select_query obj |}.

(** [if into:] for an [Optional[str]]. *)
Definition into_given (into : option string) : bool :=
  match into with
  | Some table => py_truthy (PStr table)
  | None => py_truthy PNone
  end.

Definition join (self : nat) (stmt : Select) (data_handler : DatabaseHandler)
    (into : option string) : M DataFrame :=
  local_result <- select_query self (targets stmt) (join_left (from_table stmt)) (where_ stmt) ;;
  external_result <- dh_select_query data_handler (targets stmt)
                       (join_right (from_table stmt)) (where_ stmt) ;;
  local_df <- pure_call (from_records local_result) ;;
  external_df <- pure_call (from_records external_result) ;;
  df <- pure_call (df_join local_df external_df (map expr_str (targets stmt)) "_left" "_right") ;;
  match into with
  | Some table =>
      if py_truthy (PStr table) then (select_into self table df ;;; ret df) else ret df
  | None => ret df
  end.

(** ** Running a tree against an environment *)

(** The calls made, in order, the environment afterwards and the result, for
    an environment that answers each call from its current state. *)
Fixpoint run {world X : Type} (oracle : world -> forall c : call, outcome (reply c) * world)
    (p : io X) (w : world) : list call * world * X :=
  match p with
  | Done x => ([], w, x)
  | Call c k =>
      let '(tr, w', x) := run oracle (k (fst (oracle w c))) (snd (oracle w c)) in
      (c :: tr, w', x)
  end.

Definition trace_of {world X} oracle (p : io X) (w : world) : list call :=
  fst (fst (run oracle p w)).
Definition world_of {world X} oracle (p : io X) (w : world) : world :=
  snd (fst (run oracle p w)).
Definition value_of {world X} oracle (p : io X) (w : world) : X :=
  snd (run oracle p w).

Definition is_connect (c : call) : bool :=
  match c with
  | MysqlConnect _ => true
  | _ => false
  end.

(** How often [mysql.connector.connect] was called. *)
Definition connects (tr : list call) : nat := List.length (List.filter is_connect tr).

(** ** A scripted MySQL client

    One connection handle that is open or closed, the way the client treats
    it: [connect] opens it, [close] closes it, [is_connected] reports it and
    a cursor can only be had from an open handle.  [faults] makes chosen
    calls raise: its head decides the next call.  [result_sets] are handed
    out by [fetchall], one per call; with none left there is no result set
    to fetch from. *)
Record client : Type := mkClient {
  is_open : bool;
  faults : list (option exn);
  result_sets : list (list row)
}.

Definition answer (w : client) (c : call) : outcome (reply c) * client :=
  let w' := {| is_open := is_open w; faults := tail (faults w); result_sets := result_sets w |} in
  match head (faults w) with
  | Some (Some e) => (Exn e, w')
  | _ =>
      match c return outcome (reply c) * client with
      | MysqlConnect _ =>
          (Okv 1%nat, {| is_open := true; faults := faults w'; result_sets := result_sets w' |})
      | IsConnected _ => (Okv (is_open w), w')
      | Close _ =>
          (Okv tt, {| is_open := false; faults := faults w'; result_sets := result_sets w' |})
      | Cursor _ =>
          if is_open w then (Okv 1%nat, w')
          else (Exn (PyExc "OperationalError" "MySQL Connection not available."), w')
      | Execute _ _ => (Okv tt, w')
      | Fetchall _ =>
          match result_sets w with
          | rows :: rest =>
              (Okv rows, {| is_open := is_open w'; faults := faults w'; result_sets := rest |})
          | [] => (Exn (PyExc "InterfaceError" "No result set to fetch from."), w')
          end
      | Commit _ => (Okv tt, w')
      | CreateEngine _ => (Okv 1%nat, w')
      | ToSql _ _ _ => (Okv tt, w')
      | Print _ => (Okv tt, w')
      end
  end.

(** The handler of the module's own example: no TLS, connected or not. *)
Definition example_handler (con : option conn) : MySQLHandler :=
  {| name := "test_handler"; connection := con;
     host := PStr "localhost"; port := PStr "3306"; user := PStr "root";
     database := PStr "test"; password := PStr "root"; ssl := PBool false;
     ssl_ca := PNone; ssl_cert := PNone; ssl_key := PNone |}.

(** What the probe of [check_status] yields from the answers of
    [is_connected()] and [close()]. *)
Definition probe_result (r1 : outcome bool) (r2 : outcome unit) : bool :=
  match r1, r2 with
  | Okv b, Okv _ => b
  | _, _ => false
  end.

(** The statement text as the description of [select_query] words it:
    "SELECT", the targets joined by commas, "FROM" and the table name, and a
    "WHERE" clause for a predicate. *)
Definition select_text (targets : list Expr) (table : string) (where_stmt : option Expr)
    : string :=
  "SELECT " +:+ String.concat "," (map expr_str targets) +:+ " FROM " +:+ table +:+
  match where_stmt with
  | Some w => " WHERE " +:+ expr_str w
  | None => ""
  end.

(** ** Concrete stores, statements and clients used in the examples *)

(** One handler object, at address 0, holding handle 1. *)
Definition one_handler : heap := {[ 0%nat := example_handler (Some 1%nat) ]}.

(** Two handler objects, at addresses 0 and 1. *)
Definition two_handlers : heap :=
  <[1%nat := example_handler (Some 2%nat)]> one_handler.

(** A handler that was given all of the TLS paths but the certificate. *)
Definition tls_handler (ssl_value : pyval) : MySQLHandler :=
  {| name := "tls_handler"; connection := None;
     host := PStr "db.example.org"; port := PInt 3306; user := PStr "app";
     database := PStr "shop"; password := PStr "secret"; ssl := ssl_value;
     ssl_ca := PStr "/etc/ssl/ca.pem"; ssl_cert := PNone;
     ssl_key := PStr "/etc/ssl/client-key.pem" |}.

(** A server that answers; the handle is closed, nothing is there to fetch. *)
Definition quiet_client : client := mkClient false [] [].

(** The third call, which is the connect after the probe's two, fails. *)
Definition cannot_connect : exn :=
  PyExc "InterfaceError" "2003: Can't connect to MySQL server on 'localhost:3306'".

Definition no_server : client := mkClient false [None; None; Some cannot_connect] [].

(** The sixth call, which is the execute of the statement, fails. *)
Definition syntax_error : exn :=
  PyExc "ProgrammingError" "1064 (42000): You have an error in your SQL syntax".

Definition rejecting_client : client :=
  mkClient false [None; None; None; None; None; Some syntax_error] [].

(** [SELECT a, b FROM t1 JOIN t2] and [SELECT a FROM t1 JOIN t2]. *)
Definition two_targets : Select :=
  mkSelect [mkExpr "a"; mkExpr "b"]
    (mkJoinExpr (mkIdentifier ["t1"]) (mkIdentifier ["t2"])) None.

Definition one_target : Select :=
  mkSelect [mkExpr "a"] (mkJoinExpr (mkIdentifier ["t1"]) (mkIdentifier ["t2"])) None.

(** Both tables hold the one row (a = 1, b = 2). *)
Definition matching_rows_ab : client :=
  mkClient false [] [ [[("a", PInt 1); ("b", PInt 2)]]; [[("a", PInt 1); ("b", PInt 2)]] ].

(** Both tables hold the one row (a = 5), respectively (a = 0). *)
Definition matching_rows_5 : client :=
  mkClient false [] [ [[("a", PInt 5)]]; [[("a", PInt 5)]] ].

Definition matching_rows_0 : client :=
  mkClient false [] [ [[("a", PInt 0)]]; [[("a", PInt 0)]] ].

(** ** MySQLHandler.__init__ *)

(** [kwargs.get(key)]: the value, or [None] for a missing keyword. *)
Definition kwargs_get (kwargs : gmap string pyval) (key : string) : pyval :=
  default PNone (kwargs !! key).

(** The attributes [__init__] sets before it connects. *)
Definition new_handler (name : string) (kwargs : gmap string pyval) : MySQLHandler :=
  {| name := name; connection := None;
     host := kwargs_get kwargs "host"; port := kwargs_get kwargs "port";
     user := kwargs_get kwargs "user"; database := kwargs_get kwargs "database";
     password := kwargs_get kwargs "password"; ssl := kwargs_get kwargs "ssl";
     ssl_ca := kwargs_get kwargs "ssl_ca"; ssl_cert := kwargs_get kwargs "ssl_cert";
     ssl_key := kwargs_get kwargs "ssl_key" |}.

(** [MySQLHandler(name, **kwargs)] for the new object at address [self]: the
    attributes are set, then [self.connect()] runs.  The base class
    constructor is not among the sources; it is taken to keep the name. *)
Definition init (self : nat) (name : string) (kwargs : gmap string pyval) : M unit :=
  fun h => (connect self ;;; ret tt) (<[self := new_handler name kwargs]> h).

(** Two handler objects that differ at most in their connection. *)
Definition same_settings (o1 o2 : MySQLHandler) : Prop :=
  name o1 = name o2 /\ host o1 = host o2 /\ port o1 = port o2 /\ user o1 = user o2 /\
  database o1 = database o2 /\ password o1 = password o2 /\ ssl o1 = ssl o2 /\
  ssl_ca o1 = ssl_ca o2 /\ ssl_cert o1 = ssl_cert o2 /\ ssl_key o1 = ssl_key o2.

(** The keywords [connect] can pass to the client. *)
Definition connect_keywords : list string :=
  ["host"; "port"; "user"; "password"; "client_flags"; "ssl_ca"; "ssl_cert"; "ssl_key"].

(** The statement that selects the handler's database. *)
Definition use_statement (o : MySQLHandler) : string :=
  "USE " +:+ py_str (database o) +:+ ";".

(** A server holding one row for the next [fetchall]. *)
Definition one_row : list row := [[("test_col", PInt 1)]].

Definition answering_client : client := mkClient false [] [one_row].

(** The eighth call, the commit, fails after the row was fetched. *)
Definition lost_connection : exn :=
  PyExc "OperationalError" "2013: Lost connection to MySQL server during query".

Definition commit_failing_client : client :=
  mkClient false [None; None; None; None; None; None; None; Some lost_connection] [one_row].

(** The fifth call, the [USE], fails. *)
Definition unknown_database : exn :=
  PyExc "ProgrammingError" "1049 (42000): Unknown database 'test'".

Definition use_failing_client : client :=
  mkClient false [None; None; None; None; Some unknown_database] [].

(** The engine cannot be created. *)
Definition engine_failing_client : client :=
  mkClient false [Some (PyExc "ArgumentError" "Could not parse SQLAlchemy URL")] [].

(** The left select goes through (nine calls), the execute of the right
    select, the fifteenth call, fails. *)
Definition right_failing_client : client :=
  mkClient false
    [None; None; None; None; None; None; None; None; None;
     None; None; None; None; None; Some syntax_error]
    [ [[("a", PInt 1)]] ].

(** The left table is empty, the right table holds one row. *)
Definition empty_left_client : client :=
  mkClient false [] [ []; [[("a", PInt 1)]] ].

(** The engine is created and the append goes through, respectively
    fails. *)
Definition appending_client : client := mkClient false [None; None] [].

Definition append_failing_client : client :=
  mkClient false
    [None; Some (PyExc "ProgrammingError" "1146: Table 'test.test_mdb2' doesn't exist")] [].

(** The keyword arguments of the module's own example. *)
Definition example_kwargs : gmap string pyval :=
  <["ssl" := PBool false]>
    (<["database" := PStr "test"]>
      (<["password" := PStr "root"]>
        (<["user" := PStr "root"]>
          (<["port" := PStr "3306"]>
            (<["host" := PStr "localhost"]> ∅))))).

(** What the client says of a cursor asked of a closed handle, as
    [run_native_query] hands it on. *)
Definition handle_closed_error : exn :=
  Exception "Error: MySQL Connection not available.. Please check and retry!".

(** * Properties *)

(** ** connect *)

Lemma connect_config_no_tls (o : MySQLHandler) :
  is_True (ssl o) = false ->
  connect_config o =
    <["password" := CfgVal (password o)]>
      (<["user" := CfgVal (user o)]>
        (<["port" := CfgVal (port o)]>
          (<["host" := CfgVal (host o)]> ∅))).
Proof. intros H. unfold connect_config. by rewrite H. Qed.

Lemma is_True_spec (v : pyval) : is_True v = true <-> v = PBool true.
Proof. destruct v as [|[]| |]; simpl; split; congruence. Qed.

Lemma is_not_None_spec (v : pyval) : is_not_None v = true <-> v <> PNone.
Proof. destruct v; simpl; split; congruence. Qed.

Lemma tls_path_attached (o : MySQLHandler) (path : pyval) :
  (if is_True (ssl o) && is_not_None path then Some (CfgVal path) else None : option cfgval) =
  (if decide (ssl o = PBool true /\ path <> PNone) then Some (CfgVal path) else None).
Proof.
  destruct (is_True (ssl o)) eqn:Hs, (is_not_None path) eqn:Hp; simpl;
    case_decide as Hd; try reflexivity; exfalso.
  - apply Hd. split; [by apply is_True_spec | by apply is_not_None_spec].
  - destruct Hd as [_ Hd]. apply is_not_None_spec in Hd. congruence.
  - destruct Hd as [Hd _]. apply is_True_spec in Hd. congruence.
  - destruct Hd as [Hd _]. apply is_True_spec in Hd. congruence.
Qed.

Lemma connect_config_lookup (o : MySQLHandler) :
  connect_config o !! "host" = Some (CfgVal (host o)) /\
  connect_config o !! "port" = Some (CfgVal (port o)) /\
  connect_config o !! "user" = Some (CfgVal (user o)) /\
  connect_config o !! "password" = Some (CfgVal (password o)) /\
  connect_config o !! "client_flags" =
    (if is_True (ssl o) then Some (CfgFlags [ClientFlag_SSL]) else None) /\
  connect_config o !! "ssl_ca" =
    (if is_True (ssl o) && is_not_None (ssl_ca o) then Some (CfgVal (ssl_ca o)) else None) /\
  connect_config o !! "ssl_cert" =
    (if is_True (ssl o) && is_not_None (ssl_cert o) then Some (CfgVal (ssl_cert o)) else None) /\
  connect_config o !! "ssl_key" =
    (if is_True (ssl o) && is_not_None (ssl_key o) then Some (CfgVal (ssl_key o)) else None).
Proof.
  unfold connect_config.
  destruct (is_True (ssl o)), (is_not_None (ssl_ca o)), (is_not_None (ssl_cert o)),
    (is_not_None (ssl_key o)); simpl; repeat split; by simplify_map_eq.
Qed.

Section Semantics.
Context {world : Type}.
Variable oracle : world -> forall c : call, outcome (reply c) * world.

Lemma run_eta {X} (p : io X) w :
  run oracle p w = (trace_of oracle p w, world_of oracle p w, value_of oracle p w).
Proof. unfold trace_of, world_of, value_of. by destruct (run oracle p w) as [[??]?]. Qed.

Lemma run_io_bind {X Y} (p : io X) (f : X -> io Y) w t1 w1 x t2 w2 y :
  run oracle p w = (t1, w1, x) ->
  run oracle (f x) w1 = (t2, w2, y) ->
  run oracle (io_bind p f) w = ((t1 ++ t2)%list, w2, y).
Proof.
  revert w t1. induction p as [x'|c k IH]; intros w t1; simpl.
  - intros [= <- <- <-] ->. reflexivity.
  - destruct (run oracle (k _) _) as [[t1' w1'] x'] eqn:Hk. intros [= <- <- <-] Hf.
    by rewrite (IH _ _ _ Hk Hf).
Qed.

Lemma run_bind_ok {A B} (m : M A) (f : A -> M B) h w t1 w1 h1 a t2 w2 x :
  run oracle (m h) w = (t1, w1, (h1, Okv a)) ->
  run oracle (f a h1) w1 = (t2, w2, x) ->
  run oracle (bind m f h) w = ((t1 ++ t2)%list, w2, x).
Proof. intros Hm Hf. unfold bind. by eapply run_io_bind. Qed.

Lemma run_bind_exn {A B} (m : M A) (f : A -> M B) h w t1 w1 h1 e :
  run oracle (m h) w = (t1, w1, (h1, Exn e)) ->
  run oracle (bind m f h) w = (t1, w1, (h1, Exn e)).
Proof.
  intros Hm. unfold bind. erewrite run_io_bind; [|exact Hm|reflexivity].
  by rewrite app_nil_r.
Qed.

Lemma run_try_ok {A} (m : M A) handler h w t1 w1 h1 a :
  run oracle (m h) w = (t1, w1, (h1, Okv a)) ->
  run oracle (try_except m handler h) w = (t1, w1, (h1, Okv a)).
Proof.
  intros Hm. unfold try_except. erewrite run_io_bind; [|exact Hm|reflexivity].
  by rewrite app_nil_r.
Qed.

Lemma run_try_exn {A} (m : M A) handler h w t1 w1 h1 e t2 w2 x :
  run oracle (m h) w = (t1, w1, (h1, Exn e)) ->
  run oracle (handler e h1) w1 = (t2, w2, x) ->
  run oracle (try_except m handler h) w = ((t1 ++ t2)%list, w2, x).
Proof. intros Hm Hh. unfold try_except. by eapply run_io_bind. Qed.

Lemma run_extern (c : call) h w :
  run oracle (extern c h) w = ([c], snd (oracle w c), (h, fst (oracle w c))).
Proof. reflexivity. Qed.

Lemma run_this self h o w :
  h !! self = Some o -> run oracle (this self h) w = ([], w, (h, Okv o)).
Proof. intros H. unfold this. by rewrite H. Qed.

Lemma run_with_closing {A} (c : conn) (body : option conn -> M A) h w t1 w1 h1 r :
  run oracle (body (Some c) h) w = (t1, w1, (h1, r)) ->
  run oracle (with_closing (Some c) body h) w =
    ((t1 ++ [Close c])%list, snd (oracle w1 (Close c)),
     (h1, match fst (oracle w1 (Close c)) with Okv _ => r | Exn e => Exn e end)).
Proof.
  intros Hb. unfold with_closing. eapply run_io_bind; [exact Hb|].
  simpl. by destruct (oracle w1 (Close c)) as [[[]|e] w2].
Qed.

(** *** connect *)

Lemma connect_run self h o w :
  h !! self = Some o ->
  run oracle (connect self h) w =
    ([MysqlConnect (connect_config o)],
     snd (oracle w (MysqlConnect (connect_config o))),
     match fst (oracle w (MysqlConnect (connect_config o))) with
     | Okv c => (alter (set_connection c) self h, Okv c)
     | Exn e => (h, Exn e)
     end).
Proof.
  intros H. unfold connect, bind, this, extern, update, ret. rewrite H. simpl.
  by destruct (oracle w (MysqlConnect (connect_config o))) as [[c|e] w1].
Qed.

(** C7. [connect] passes to the client exactly the dictionary built from
    host, port, user and password, to which each of [ssl_ca], [ssl_cert]
    and [ssl_key] is added if and only if [ssl is True] and that path is
    not [None]; without [ssl is True] none of them is there. *)
Theorem connect_parameters self h o w :
  h !! self = Some o ->
  exists config,
    trace_of oracle (connect self h) w = [MysqlConnect config] /\
    config !! "host" = Some (CfgVal (host o)) /\
    config !! "port" = Some (CfgVal (port o)) /\
    config !! "user" = Some (CfgVal (user o)) /\
    config !! "password" = Some (CfgVal (password o)) /\
    config !! "ssl_ca" =
      (if decide (ssl o = PBool true /\ ssl_ca o <> PNone)
       then Some (CfgVal (ssl_ca o)) else None) /\
    config !! "ssl_cert" =
      (if decide (ssl o = PBool true /\ ssl_cert o <> PNone)
       then Some (CfgVal (ssl_cert o)) else None) /\
    config !! "ssl_key" =
      (if decide (ssl o = PBool true /\ ssl_key o <> PNone)
       then Some (CfgVal (ssl_key o)) else None).
Proof.
  intros H. exists (connect_config o).
  destruct (connect_config_lookup o) as (Hh & Hp & Hu & Hw & _ & Hca & Hcert & Hkey).
  unfold trace_of. rewrite (connect_run _ _ _ _ H). simpl.
  rewrite <- !tls_path_attached.
  repeat split; assumption.
Qed.

(** C10. Unless [ssl] is the boolean [True] itself, [connect] passes the
    four-entry dictionary: no client flag and no CA, certificate or key,
    whatever the three paths hold. *)
Theorem connect_tls_only_for_True self h o w :
  h !! self = Some o ->
  ssl o <> PBool true ->
  exists config,
    trace_of oracle (connect self h) w = [MysqlConnect config] /\
    config = <["password" := CfgVal (password o)]>
               (<["user" := CfgVal (user o)]>
                 (<["port" := CfgVal (port o)]>
                   (<["host" := CfgVal (host o)]> ∅))) /\
    config !! "client_flags" = None /\
    config !! "ssl_ca" = None /\
    config !! "ssl_cert" = None /\
    config !! "ssl_key" = None.
Proof.
  intros H Hssl. exists (connect_config o).
  assert (Hf : is_True (ssl o) = false).
  { destruct (is_True (ssl o)) eqn:E; [|done]. by apply is_True_spec in E. }
  unfold trace_of. rewrite (connect_run _ _ _ _ H). simpl.
  destruct (connect_config_lookup o) as (_ & _ & _ & _ & Hfl & Hca & Hcert & Hkey).
  rewrite Hf in *. simpl in *.
  split; [done|]. split; [by apply connect_config_no_tls|]. done.
Qed.

(** *** check_status *)

Lemma check_status_run self h o c w :
  h !! self = Some o ->
  connection o = Some c ->
  run oracle (check_status self h) w =
    ([IsConnected c; Close c],
     snd (oracle (snd (oracle w (IsConnected c))) (Close c)),
     (h, Okv (probe_result (fst (oracle w (IsConnected c)))
                (fst (oracle (snd (oracle w (IsConnected c))) (Close c)))))).
Proof.
  intros H Hc. unfold check_status, try_except, bind, this, with_closing, on_conn, extern.
  rewrite H. simpl. rewrite Hc. simpl.
  destruct (oracle w (IsConnected c)) as [[b|e] w1]; simpl;
    by destruct (oracle w1 (Close c)) as [[[]|e'] w2].
Qed.

Lemma check_status_run_unset self h o w :
  h !! self = Some o ->
  connection o = None ->
  run oracle (check_status self h) w = ([], w, (h, Okv false)).
Proof.
  intros H Hc. unfold check_status, try_except, bind, this, with_closing, on_conn.
  rewrite H. simpl. by rewrite Hc.
Qed.

Lemma check_status_run_dangling self h w :
  h !! self = None ->
  run oracle (check_status self h) w = ([], w, (h, Okv false)).
Proof. intros H. unfold check_status, try_except, bind, this. by rewrite H. Qed.

(** C8. [check_status] returns a boolean and never raises, whatever the
    connection attribute holds and whatever the client answers; it returns
    [True] only when [is_connected()] answered [True] and [close()]
    returned, so every exception during the probe gives [False]. *)
Theorem check_status_total self h w :
  exists b : bool,
    value_of oracle (check_status self h) w = (h, Okv b) /\
    (b = true ->
     exists o c,
       h !! self = Some o /\ connection o = Some c /\
       fst (oracle w (IsConnected c)) = Okv true /\
       fst (oracle (snd (oracle w (IsConnected c))) (Close c)) = Okv tt).
Proof.
  unfold value_of. destruct (h !! self) as [o|] eqn:H.
  - destruct (connection o) as [c|] eqn:Hc.
    + rewrite (check_status_run _ _ _ _ _ H Hc). simpl.
      eexists; split; [reflexivity|]. intros Hb. exists o, c.
      destruct (oracle w (IsConnected c)) as [[b|e] w1]; simpl in *; [|done].
      destruct (oracle w1 (Close c)) as [[[]|e'] w2]; simpl in *; [|done].
      by subst.
    + rewrite (check_status_run_unset _ _ _ _ H Hc). by exists false.
  - rewrite (check_status_run_dangling _ _ _ H). by exists false.
Qed.

(** *** run_native_query *)

Lemma connects_app (t1 t2 : list call) : connects (t1 ++ t2) = (connects t1 + connects t2)%nat.
Proof. unfold connects. by rewrite List.filter_app, length_app. Qed.

Ltac ask :=
  match goal with
  | |- context [oracle ?w ?c] => destruct (oracle w c) as [[?|?] ?]; simpl
  end.

Ltac open_guarded :=
  unfold guarded_query, query_block, try_except, bind, this, with_closing, on_conn,
    extern, ret, raise.

(** The guarded block never connects and leaves the store as it is. *)
Lemma guarded_query_quiet self q h w :
  connects (trace_of oracle (guarded_query self q h) w) = 0%nat /\
  fst (value_of oracle (guarded_query self q h) w) = h.
Proof.
  unfold trace_of, value_of. open_guarded.
  destruct (h !! self) as [o|]; simpl; [|done].
  destruct (connection o) as [c|]; simpl; [|done].
  repeat ask; done.
Qed.

(** Whatever the block raises reaches the caller wrapped. *)
Lemma guarded_query_wraps self q h w e :
  snd (value_of oracle (guarded_query self q h) w) = Exn e ->
  exists e0, e = Exception (query_error_msg e0).
Proof.
  unfold value_of. open_guarded.
  destruct (h !! self) as [o|]; simpl; [|intros [= <-]; eauto].
  destruct (connection o) as [c|]; simpl; [|intros [= <-]; eauto].
  repeat ask; intros [= <-]; eauto.
Qed.

Lemma reconnect_run self h o w :
  h !! self = Some o ->
  run oracle (reconnect_if_needed self h) w =
    (let tp := trace_of oracle (check_status self h) w in
     let wp := world_of oracle (check_status self h) w in
     let cfg := MysqlConnect (connect_config o) in
     match value_of oracle (check_status self h) w with
     | (_, Okv true) => (tp, wp, (h, Okv tt))
     | _ =>
         ((tp ++ [cfg])%list, snd (oracle wp cfg),
          match fst (oracle wp cfg) with
          | Okv c => (alter (set_connection c) self h, Okv tt)
          | Exn e => (h, Exn e)
          end)
     end).
Proof.
  intros H. destruct (check_status_total self h w) as (b & Hb & _).
  cbv zeta. rewrite Hb. unfold reconnect_if_needed.
  pose proof (run_eta (check_status self h) w) as Hp. rewrite Hb in Hp.
  destruct b; cbv iota.
  - erewrite run_bind_ok; [|exact Hp|reflexivity]. by rewrite app_nil_r.
  - set (wp := world_of oracle (check_status self h) w) in *.
    pose proof (connect_run self h o wp H) as Hc.
    destruct (fst (oracle wp (MysqlConnect (connect_config o)))) as [c|e].
    + erewrite run_bind_ok; [reflexivity|exact Hp|]. simpl.
      erewrite run_bind_ok; [|exact Hc|reflexivity]. reflexivity.
    + erewrite run_bind_ok; [reflexivity|exact Hp|]. simpl.
      erewrite run_bind_exn; [|exact Hc]. reflexivity.
Qed.

Lemma check_status_no_connect self h w :
  connects (trace_of oracle (check_status self h) w) = 0%nat.
Proof.
  unfold trace_of. destruct (h !! self) as [o|] eqn:H.
  - destruct (connection o) as [c|] eqn:Hc.
    + by rewrite (check_status_run _ _ _ _ _ H Hc).
    + by rewrite (check_status_run_unset _ _ _ _ H Hc).
  - by rewrite (check_status_run_dangling _ _ _ H).
Qed.

(** How a call of [run_native_query] unfolds: the probe; the connect when
    the probe did not report alive; then, unless that connect raised, the
    guarded block. *)
Lemma run_native_query_unfold self q h o w :
  h !! self = Some o ->
  let tp := trace_of oracle (check_status self h) w in
  let wp := world_of oracle (check_status self h) w in
  let cfg := MysqlConnect (connect_config o) in
  run oracle (run_native_query self q h) w =
    match value_of oracle (check_status self h) w with
    | (_, Okv true) =>
        ((tp ++ trace_of oracle (guarded_query self q h) wp)%list,
         world_of oracle (guarded_query self q h) wp,
         value_of oracle (guarded_query self q h) wp)
    | _ =>
        match fst (oracle wp cfg) with
        | Okv c =>
            let h1 := alter (set_connection c) self h in
            let w1 := snd (oracle wp cfg) in
            ((tp ++ cfg :: trace_of oracle (guarded_query self q h1) w1)%list,
             world_of oracle (guarded_query self q h1) w1,
             value_of oracle (guarded_query self q h1) w1)
        | Exn e => ((tp ++ [cfg])%list, snd (oracle wp cfg), (h, Exn e))
        end
    end.
Proof.
  intros H tp wp cfg. unfold run_native_query.
  pose proof (reconnect_run _ _ _ w H) as Hr. cbv zeta in Hr. fold tp wp cfg in Hr.
  destruct (value_of oracle (check_status self h) w) as [h' [[]|e]].
  - erewrite run_bind_ok; [reflexivity|exact Hr|apply run_eta].
  - destruct (fst (oracle wp cfg)) as [c|e].
    + erewrite run_bind_ok; [|exact Hr|apply run_eta]. by rewrite <- app_assoc.
    + by erewrite run_bind_exn.
  - destruct (fst (oracle wp cfg)) as [c|e'].
    + erewrite run_bind_ok; [|exact Hr|apply run_eta]. by rewrite <- app_assoc.
    + by erewrite run_bind_exn.
Qed.

(** C2, as the code has it. [run_native_query] first probes with
    [check_status]; [connect] is called exactly when the probe did not
    report alive, once, right after the probe and with the handler's own
    parameters; an exception of that [connect] ends the call and reaches
    the caller as it was raised, without the wrapping the guarded block
    gives to execution failures. *)
Theorem run_native_query_reconnects_once self q h o w :
  h !! self = Some o ->
  exists (alive : bool) (rest : list call),
    value_of oracle (check_status self h) w = (h, Okv alive) /\
    trace_of oracle (run_native_query self q h) w =
      (trace_of oracle (check_status self h) w ++ rest)%list /\
    connects (trace_of oracle (run_native_query self q h) w) =
      (if alive then 0%nat else 1%nat) /\
    (alive = false ->
     exists rest', rest = MysqlConnect (connect_config o) :: rest' /\
       forall e,
         fst (oracle (world_of oracle (check_status self h) w)
                (MysqlConnect (connect_config o))) = Exn e ->
         rest' = [] /\
         value_of oracle (run_native_query self q h) w = (h, Exn e)).
Proof.
  intros H. destruct (check_status_total self h w) as (alive & Hb & _).
  exists alive.
  pose proof (run_native_query_unfold self q h o w H) as Hu. cbv zeta in Hu.
  rewrite Hb in Hu.
  pose proof (check_status_no_connect self h w) as Hp.
  assert (Ht : forall t w' x,
    run oracle (run_native_query self q h) w = (t, w', x) ->
    trace_of oracle (run_native_query self q h) w = t /\
    value_of oracle (run_native_query self q h) w = x).
  { intros t w' x E. unfold trace_of, value_of. by rewrite E. }
  destruct alive.
  - destruct (Ht _ _ _ Hu) as [-> ->]. eexists. split; [done|].
    split; [reflexivity|]. split; [|done].
    rewrite connects_app, Hp. apply guarded_query_quiet.
  - destruct (fst (oracle (world_of oracle (check_status self h) w)
                (MysqlConnect (connect_config o)))) as [c|e].
    + destruct (Ht _ _ _ Hu) as [-> ->]. eexists. split; [done|].
      split; [reflexivity|]. split.
      * rewrite connects_app, Hp.
        change (connects (?c0 :: ?t)) with (S (connects t)).
        by rewrite (proj1 (guarded_query_quiet _ _ _ _)).
      * intros _. eexists. split; [reflexivity|]. intros e [=].
    + destruct (Ht _ _ _ Hu) as [-> ->]. eexists. split; [done|].
      split; [reflexivity|]. split.
      * by rewrite connects_app, Hp.
      * intros _. eexists. split; [reflexivity|]. by intros e' [= <-].
Qed.

Lemma guarded_query_fetch self q h o c w cur w2 w3 w4 :
  h !! self = Some o ->
  connection o = Some c ->
  oracle w (Cursor c) = (Okv cur, w2) ->
  oracle w2 (Execute cur ("USE " +:+ py_str (database o) +:+ ";")) = (Okv tt, w3) ->
  oracle w3 (Execute cur q) = (Okv tt, w4) ->
  let res := match fst (oracle w4 (Fetchall cur)) with
             | Okv rows => ResRows rows
             | Exn _ => ResTrue
             end in
  let w5 := snd (oracle w4 (Fetchall cur)) in
  let w6 := snd (oracle w5 (Commit c)) in
  run oracle (guarded_query self q h) w =
    ([Cursor c; Execute cur ("USE " +:+ py_str (database o) +:+ ";"); Execute cur q;
      Fetchall cur; Commit c; Close c],
     snd (oracle w6 (Close c)),
     (h, match fst (oracle w5 (Commit c)), fst (oracle w6 (Close c)) with
         | Okv _, Okv _ => Okv res
         | _, Exn ec => Exn (Exception (query_error_msg ec))
         | Exn ec, Okv _ => Exn (Exception (query_error_msg ec))
         end)).
Proof.
  intros H Hc H1 H2 H3. cbv zeta. open_guarded.
  rewrite H. simpl. rewrite Hc. simpl. rewrite H1. simpl. rewrite H2. simpl.
  rewrite H3. simpl.
  destruct (oracle w4 (Fetchall cur)) as [[rows|ef] w5]; simpl;
    destruct (oracle w5 (Commit c)) as [[[]|ec] w6]; simpl;
    by destruct (oracle w6 (Close c)) as [[[]|ecl] w7].
Qed.

Lemma guarded_query_execute_fails self q h o c w cur w2 w3 e w4 :
  h !! self = Some o ->
  connection o = Some c ->
  oracle w (Cursor c) = (Okv cur, w2) ->
  oracle w2 (Execute cur ("USE " +:+ py_str (database o) +:+ ";")) = (Okv tt, w3) ->
  oracle w3 (Execute cur q) = (Exn e, w4) ->
  run oracle (guarded_query self q h) w =
    ([Cursor c; Execute cur ("USE " +:+ py_str (database o) +:+ ";"); Execute cur q; Close c],
     snd (oracle w4 (Close c)),
     (h, Exn (Exception (query_error_msg
                match fst (oracle w4 (Close c)) with
                | Okv _ => e
                | Exn ec => ec
                end)))).
Proof.
  intros H Hc H1 H2 H3. open_guarded.
  rewrite H. simpl. rewrite Hc. simpl. rewrite H1. simpl. rewrite H2. simpl.
  rewrite H3. simpl.
  by destruct (oracle w4 (Close c)) as [[[]|ecl] w5].
Qed.

Lemma connect_config_set_connection c o :
  connect_config (set_connection c o) = connect_config o.
Proof. reflexivity. Qed.

(** The reconnect step changes nothing of [self] but its connection. *)
Lemma reconnect_keeps_config self h o w :
  h !! self = Some o ->
  exists o1,
    fst (value_of oracle (reconnect_if_needed self h) w) !! self = Some o1 /\
    connect_config o1 = connect_config o /\
    database o1 = database o.
Proof.
  intros H. unfold value_of. rewrite (reconnect_run _ _ _ _ H). cbv zeta.
  destruct (value_of oracle (check_status self h) w) as [h' [[]|e]]; cbv iota;
    try (by exists o);
    match goal with
    | |- context [fst (oracle ?w0 ?c0)] => destruct (fst (oracle w0 c0)) as [c|e']
    end; simpl;
    solve [ exists (set_connection c o); by rewrite lookup_alter_eq, H | by exists o ].
Qed.

(** Every call starts with the probe, and connects right after it when the
    probe did not report alive. *)
Lemma run_native_query_probe_first self q h o c w :
  h !! self = Some o ->
  connection o = Some c ->
  exists rest,
    trace_of oracle (run_native_query self q h) w = IsConnected c :: Close c :: rest /\
    (value_of oracle (check_status self h) w = (h, Okv false) ->
     exists rest', rest = MysqlConnect (connect_config o) :: rest').
Proof.
  intros H Hc.
  pose proof (run_native_query_unfold self q h o w H) as Hu. cbv zeta in Hu.
  assert (Htp : trace_of oracle (check_status self h) w = [IsConnected c; Close c]).
  { unfold trace_of. by rewrite (check_status_run _ _ _ _ _ H Hc). }
  destruct (check_status_total self h w) as (alive & Hb & _).
  rewrite Hb, Htp in Hu. rewrite Hb. unfold trace_of at 1.
  destruct alive.
  - rewrite Hu. simpl. eexists. split; [reflexivity|]. intros [=].
  - destruct (fst (oracle (world_of oracle (check_status self h) w)
                (MysqlConnect (connect_config o)))) as [c0|e];
      rewrite Hu; simpl; eexists; (split; [reflexivity|]); intros _; by eexists.
Qed.

(** The fetch handling on a session that works: for a statement that
    executes and has no result set [fetchall()] raises, the exception is
    swallowed and [run_native_query] returns [True].  A connection was
    obtained, and the cursor, [USE], [commit()] and [close()] succeed. *)
Theorem run_native_query_no_result_set self q h w t1 w1 h1 o1 c cur w2 w3 w4 e w5 w6 w7 :
  run oracle (reconnect_if_needed self h) w = (t1, w1, (h1, Okv tt)) ->
  h1 !! self = Some o1 ->
  connection o1 = Some c ->
  oracle w1 (Cursor c) = (Okv cur, w2) ->
  oracle w2 (Execute cur ("USE " +:+ py_str (database o1) +:+ ";")) = (Okv tt, w3) ->
  oracle w3 (Execute cur q) = (Okv tt, w4) ->
  oracle w4 (Fetchall cur) = (Exn e, w5) ->
  oracle w5 (Commit c) = (Okv tt, w6) ->
  oracle w6 (Close c) = (Okv tt, w7) ->
  run oracle (run_native_query self q h) w =
    ((t1 ++ [Cursor c; Execute cur ("USE " +:+ py_str (database o1) +:+ ";");
             Execute cur q; Fetchall cur; Commit c; Close c])%list,
     w7, (h1, Okv ResTrue)).
Proof.
  intros Hr H Hc H1 H2 H3 H4 H5 H6. unfold run_native_query.
  eapply run_bind_ok; [exact Hr|].
  rewrite (guarded_query_fetch _ _ _ _ _ _ _ _ _ _ H Hc H1 H2 H3). cbv zeta.
  rewrite H4. simpl. rewrite H5. simpl. by rewrite H6.
Qed.

(** C6. A statement whose execution fails once a connection exists:
    [run_native_query] raises [Exception] with the message
    "Error: <engine message>. Please check and retry!", the engine message
    being that of the failed [execute] (or of [close()], should closing
    the handle fail as well).  The handler keeps its parameters, and the
    next call probes again and connects with them when the probe does not
    report alive. *)
Theorem run_native_query_execution_failure self q h o w t1 w1 h1 o1 c cur w2 w3 e w4 :
  h !! self = Some o ->
  run oracle (reconnect_if_needed self h) w = (t1, w1, (h1, Okv tt)) ->
  h1 !! self = Some o1 ->
  connection o1 = Some c ->
  oracle w1 (Cursor c) = (Okv cur, w2) ->
  oracle w2 (Execute cur ("USE " +:+ py_str (database o1) +:+ ";")) = (Okv tt, w3) ->
  oracle w3 (Execute cur q) = (Exn e, w4) ->
  run oracle (run_native_query self q h) w =
    ((t1 ++ [Cursor c; Execute cur ("USE " +:+ py_str (database o1) +:+ ";");
             Execute cur q; Close c])%list,
     snd (oracle w4 (Close c)),
     (h1, Exn (Exception
                 ("Error: " +:+
                  exc_msg match fst (oracle w4 (Close c)) with
                          | Okv _ => e
                          | Exn ec => ec
                          end +:+
                  ". Please check and retry!")))) /\
  connect_config o1 = connect_config o /\
  forall q' w',
    exists rest,
      trace_of oracle (run_native_query self q' h1) w' =
        IsConnected c :: Close c :: rest /\
      (value_of oracle (check_status self h1) w' = (h1, Okv false) ->
       exists rest', rest = MysqlConnect (connect_config o) :: rest').
Proof.
  intros H Hr H1 Hc Hcur Huse Hex.
  destruct (reconnect_keeps_config self h o w H) as (o1' & Ho1 & Hcfg & _).
  unfold value_of in Ho1. rewrite Hr in Ho1. simpl in Ho1.
  rewrite H1 in Ho1. injection Ho1 as <-.
  split; [|split; [exact Hcfg|]].
  - unfold run_native_query. eapply run_bind_ok; [exact Hr|].
    by rewrite (guarded_query_execute_fails _ _ _ _ _ _ _ _ _ _ _ H1 Hc Hcur Huse Hex).
  - intros q' w'. rewrite <- Hcfg. by apply run_native_query_probe_first.
Qed.

(** *** select_query *)

Lemma append_assoc (a b c : string) : (a +:+ b) +:+ c = a +:+ (b +:+ c).
Proof.
  induction a as [|x a IH]; [done|].
  change (String x ((a +:+ b) +:+ c) = String x (a +:+ (b +:+ c))). by rewrite IH.
Qed.

Lemma append_nil_r (a : string) : a +:+ "" = a.
Proof.
  induction a as [|x a IH]; [done|].
  change (String x (a +:+ "") = String x a). by rewrite IH.
Qed.

Lemma py_last_some {A} (l : list A) (x : A) : last l = Some x -> py_last l = ret x.
Proof.
  intros H. unfold py_last. destruct l as [|y l] using rev_ind; [done|].
  rewrite last_snoc in H. injection H as ->. by rewrite rev_unit.
Qed.

Lemma py_last_nil {A} : @py_last A [] = raise (IndexError "list index out of range").
Proof. reflexivity. Qed.

(** C5. [select_query] hands [run_native_query] exactly the text
    "SELECT <targets joined by commas> FROM <last part of the table
    reference>", followed by " WHERE <predicate>" when a predicate is given
    and by nothing when it is [None]. *)
Theorem select_query_text self (targets : list Expr) (from_stmt : Identifier)
    (where_stmt : option Expr) (table : string) :
  last (parts from_stmt) = Some table ->
  select_query self targets from_stmt where_stmt =
    run_native_query self (select_text targets table where_stmt) /\
  select_text targets table None =
    "SELECT " +:+ String.concat "," (map expr_str targets) +:+ " FROM " +:+ table /\
  forall w, select_text targets table (Some w) =
    select_text targets table None +:+ " WHERE " +:+ expr_str w.
Proof.
  intros H.
  assert (Hnone : select_text targets table None =
    "SELECT " +:+ String.concat "," (map expr_str targets) +:+ " FROM " +:+ table).
  { unfold select_text. by rewrite append_nil_r. }
  assert (Hsome : forall w, select_text targets table (Some w) =
    select_text targets table None +:+ " WHERE " +:+ expr_str w).
  { intros w. rewrite Hnone. unfold select_text. by rewrite !append_assoc. }
  split; [|by split].
  unfold select_query. rewrite (py_last_some _ _ H).
  destruct where_stmt as [w|].
  - rewrite Hsome, Hnone. reflexivity.
  - rewrite Hnone. reflexivity.
Qed.

(** Without a part to take, the indexing raises before anything is sent. *)
Lemma select_query_no_parts self (targets : list Expr) (where_stmt : option Expr) h w :
  run oracle (select_query self targets (mkIdentifier []) where_stmt h) w =
    ([], w, (h, Exn (IndexError "list index out of range"))).
Proof. reflexivity. Qed.

(** *** select_into *)

Ltac open_select_into :=
  unfold select_into, try_except, bind, this, extern, ret, raise.

(** C9. The engine of [select_into] is created from the URL
    "mysql://<host>:<port>/<database>" and nothing else of the handler is
    used: two handlers that agree on host, port and database make the
    same calls with the same outcome, whatever their user, password and
    TLS attributes are. *)
Theorem select_into_url self table df h o w :
  h !! self = Some o ->
  (exists rest,
     trace_of oracle (select_into self table df h) w =
       CreateEngine ("mysql://" +:+ py_str (host o) +:+ ":" +:+ py_str (port o) +:+ "/"
                     +:+ py_str (database o)) :: rest) /\
  forall h' o',
    h' !! self = Some o' ->
    host o' = host o -> port o' = port o -> database o' = database o ->
    trace_of oracle (select_into self table df h') w =
      trace_of oracle (select_into self table df h) w /\
    world_of oracle (select_into self table df h') w =
      world_of oracle (select_into self table df h) w /\
    snd (value_of oracle (select_into self table df h') w) =
      snd (value_of oracle (select_into self table df h) w).
Proof.
  intros H. split.
  - unfold trace_of. open_select_into. rewrite H. simpl.
    repeat ask; by eexists.
  - intros h' o' H' Hh Hp Hd. unfold trace_of, world_of, value_of.
    open_select_into. rewrite H, H'. simpl. unfold engine_url.
    rewrite Hh, Hp, Hd.
    repeat ask; done.
Qed.

(** *** join *)

Lemma run_pure_call {A} (r : outcome A) (a : A) h w :
  r = Okv a -> run oracle (pure_call r h) w = ([], w, (h, Okv a)).
Proof. by intros ->. Qed.

(** The path of [join] on which the frames are built and joined: it selects
    on [self] with the left side of the from-expression, then on the other
    handler with the right side, both with the statement's targets and
    predicate; turns both results into frames and joins them; then, exactly
    when [into] is a (non-empty) table name, calls [self.select_into] with
    that name and the joined frame; and returns the joined frame. *)
Theorem join_steps self stmt data_handler into h w
    t1 w1 h1 local_result t2 w2 h2 external_result local_df external_df df :
  run oracle (select_query self (targets stmt) (join_left (from_table stmt))
                (where_ stmt) h) w = (t1, w1, (h1, Okv local_result)) ->
  run oracle (dh_select_query data_handler (targets stmt) (join_right (from_table stmt))
                (where_ stmt) h1) w1 = (t2, w2, (h2, Okv external_result)) ->
  from_records local_result = Okv local_df ->
  from_records external_result = Okv external_df ->
  df_join local_df external_df (map expr_str (targets stmt)) "_left" "_right" = Okv df ->
  (into_given into = false ->
   run oracle (join self stmt data_handler into h) w = ((t1 ++ t2)%list, w2, (h2, Okv df))) /\
  (forall table t3 w3 h3 r,
     into = Some table ->
     table <> "" ->
     run oracle (select_into self table df h2) w2 = (t3, w3, (h3, r)) ->
     run oracle (join self stmt data_handler into h) w =
       ((t1 ++ t2 ++ t3)%list, w3,
        (h3, match r with Okv _ => Okv df | Exn e => Exn e end))).
Proof.
  intros Hl Hr Hfl Hfr Hj.
  assert (Hpre : forall (k : DataFrame -> M DataFrame) t3 w3 x,
    run oracle (k df h2) w2 = (t3, w3, x) ->
    run oracle
      ((local_result <- select_query self (targets stmt) (join_left (from_table stmt))
                          (where_ stmt) ;;
        external_result <- dh_select_query data_handler (targets stmt)
                             (join_right (from_table stmt)) (where_ stmt) ;;
        local_df <- pure_call (from_records local_result) ;;
        external_df <- pure_call (from_records external_result) ;;
        df <- pure_call (df_join local_df external_df (map expr_str (targets stmt))
                           "_left" "_right") ;;
        k df) h) w = ((t1 ++ t2 ++ t3)%list, w3, x)).
  { intros k t3 w3 x Hk.
    eapply run_bind_ok; [exact Hl|].
    eapply run_bind_ok; [exact Hr|].
    change t3 with ([] ++ [] ++ [] ++ t3)%list.
    eapply run_bind_ok; [by apply run_pure_call|].
    eapply run_bind_ok; [by apply run_pure_call|].
    eapply run_bind_ok; [by apply run_pure_call|]. exact Hk. }
  split.
  - intros Hno. unfold join.
    replace (t1 ++ t2)%list with (t1 ++ t2 ++ [])%list by by rewrite app_nil_r.
    apply Hpre. destruct into as [table|]; [|done].
    change (py_truthy (PStr table) = false) in Hno. by rewrite Hno.
  - intros table t3 w3 h3 r -> Hne Hs. unfold join. apply Hpre.
    assert (Ht : py_truthy (PStr table) = true).
    { simpl. by rewrite (proj2 (String.eqb_neq table "")). }
    rewrite Ht. destruct r as [b|e].
    + replace t3 with (t3 ++ [])%list by by rewrite app_nil_r.
      eapply run_bind_ok; [exact Hs|done].
    + by eapply run_bind_exn.
Qed.
End Semantics.

(** ** The methods on concrete inputs *)

Lemma connect_parameters_witness :
  exists config,
    trace_of answer (connect 0 {[ 0%nat := tls_handler (PBool true) ]}) quiet_client
      = [MysqlConnect config] /\
    config !! "host" = Some (CfgVal (PStr "db.example.org")) /\
    config !! "port" = Some (CfgVal (PInt 3306)) /\
    config !! "user" = Some (CfgVal (PStr "app")) /\
    config !! "password" = Some (CfgVal (PStr "secret")) /\
    config !! "ssl_ca" = Some (CfgVal (PStr "/etc/ssl/ca.pem")) /\
    config !! "ssl_cert" = None /\
    config !! "ssl_key" = Some (CfgVal (PStr "/etc/ssl/client-key.pem")).
Proof.
  apply (connect_parameters answer 0 {[ 0%nat := tls_handler (PBool true) ]}
           (tls_handler (PBool true)) quiet_client).
  reflexivity.
Defined.

Lemma connect_tls_only_for_True_witness :
  exists config,
    trace_of answer (connect 0 {[ 0%nat := tls_handler (PStr "true") ]}) quiet_client
      = [MysqlConnect config] /\
    config = <["password" := CfgVal (PStr "secret")]>
               (<["user" := CfgVal (PStr "app")]>
                 (<["port" := CfgVal (PInt 3306)]>
                   (<["host" := CfgVal (PStr "db.example.org")]> ∅))) /\
    config !! "client_flags" = None /\
    config !! "ssl_ca" = None /\
    config !! "ssl_cert" = None /\
    config !! "ssl_key" = None.
Proof.
  apply (connect_tls_only_for_True answer 0 {[ 0%nat := tls_handler (PStr "true") ]}
           (tls_handler (PStr "true")) quiet_client).
  - reflexivity.
  - discriminate.
Defined.

(** The integer 1 is truthy and still is not [True]. *)
Example connect_ssl_one :
  connect_config (tls_handler (PInt 1)) !! "client_flags" = None /\
  connect_config (tls_handler (PBool true)) !! "client_flags"
    = Some (CfgFlags [ClientFlag_SSL]).
Proof. split; reflexivity. Qed.

Lemma run_native_query_reconnects_once_witness :
  exists (alive : bool) (rest : list call),
    value_of answer (check_status 0 one_handler) quiet_client = (one_handler, Okv alive) /\
    trace_of answer (run_native_query 0 "SHOW TABLES;" one_handler) quiet_client =
      (trace_of answer (check_status 0 one_handler) quiet_client ++ rest)%list /\
    connects (trace_of answer (run_native_query 0 "SHOW TABLES;" one_handler) quiet_client) =
      (if alive then 0%nat else 1%nat) /\
    (alive = false ->
     exists rest', rest = MysqlConnect (connect_config (example_handler (Some 1%nat))) :: rest' /\
       forall e,
         fst (answer (world_of answer (check_status 0 one_handler) quiet_client)
                (MysqlConnect (connect_config (example_handler (Some 1%nat))))) = Exn e ->
         rest' = [] /\
         value_of answer (run_native_query 0 "SHOW TABLES;" one_handler) quiet_client
           = (one_handler, Exn e)).
Proof.
  apply (run_native_query_reconnects_once answer 0 "SHOW TABLES;" one_handler
           (example_handler (Some 1%nat)) quiet_client).
  reflexivity.
Defined.

(** C2 as stated fails: with no server to reach, the probe reports not
    alive, the connect raises, and what the caller gets is that exception
    itself, not the "Error: ... Please check and retry!" wrapping. *)
Lemma run_native_query_connect_failure_unwrapped :
  one_handler !! 0%nat = Some (example_handler (Some 1%nat)) /\
  value_of answer (check_status 0 one_handler) no_server = (one_handler, Okv false) /\
  fst (answer (world_of answer (check_status 0 one_handler) no_server)
         (MysqlConnect (connect_config (example_handler (Some 1%nat))))) = Exn cannot_connect /\
  snd (value_of answer (run_native_query 0 "SHOW TABLES;" one_handler) no_server)
    = Exn cannot_connect /\
  snd (value_of answer (run_native_query 0 "SHOW TABLES;" one_handler) no_server)
    <> Exn (Exception (query_error_msg cannot_connect)).
Proof.
  split; [reflexivity|]. split; [reflexivity|]. split; [reflexivity|].
  split; [reflexivity|]. vm_compute. discriminate.
Qed.

Lemma run_native_query_no_result_set_witness :
  exists t w' h',
    run answer (run_native_query 0 "CREATE TABLE test_mdb (test_col INT)" one_handler)
      quiet_client = (t, w', (h', Okv ResTrue)).
Proof.
  do 3 eexists.
  eapply (run_native_query_no_result_set answer 0 "CREATE TABLE test_mdb (test_col INT)"
            one_handler quiet_client);
    reflexivity.
Defined.

Lemma run_native_query_execution_failure_witness :
  exists t w' h',
    run answer (run_native_query 0 "SELEC 1" one_handler) rejecting_client =
      (t, w', (h', Exn (Exception
         "Error: 1064 (42000): You have an error in your SQL syntax. Please check and retry!"))).
Proof.
  do 3 eexists.
  eapply (proj1 (run_native_query_execution_failure answer 0 "SELEC 1" one_handler
                   (example_handler (Some 1%nat)) rejecting_client
                   _ _ _ _ _ _ _ _ _ _
                   ltac:(reflexivity) ltac:(reflexivity) ltac:(reflexivity) ltac:(reflexivity)
                   ltac:(reflexivity) ltac:(reflexivity) ltac:(reflexivity))).
Defined.

Lemma select_query_text_witness :
  select_query 0 [mkExpr "test_col"; mkExpr "id"] (mkIdentifier ["test"; "test_mdb"])
      (Some (mkExpr "id = 'a'")) =
    run_native_query 0 "SELECT test_col,id FROM test_mdb WHERE id = 'a'" /\
  select_query 0 [mkExpr "test_col"; mkExpr "id"] (mkIdentifier ["test"; "test_mdb"]) None =
    run_native_query 0 "SELECT test_col,id FROM test_mdb".
Proof.
  split.
  - apply (select_query_text 0 [mkExpr "test_col"; mkExpr "id"]
             (mkIdentifier ["test"; "test_mdb"]) (Some (mkExpr "id = 'a'")) "test_mdb").
    reflexivity.
  - apply (select_query_text 0 [mkExpr "test_col"; mkExpr "id"]
             (mkIdentifier ["test"; "test_mdb"]) None "test_mdb").
    reflexivity.
Defined.

Lemma select_into_url_witness :
  exists rest,
    trace_of answer
      (select_into 0 "test_mdb2" (mkDataFrame ["test_col"] [0] [[PInt 1]])
         {[ 0%nat := tls_handler (PBool true) ]}) quiet_client
    = CreateEngine "mysql://db.example.org:3306/shop" :: rest.
Proof.
  apply (select_into_url answer 0 "test_mdb2" (mkDataFrame ["test_col"] [0] [[PInt 1]])
           {[ 0%nat := tls_handler (PBool true) ]} (tls_handler (PBool true)) quiet_client).
  reflexivity.
Defined.

Lemma join_steps_witness :
  (exists t w' h',
     run answer (join 0 one_target (as_handler 1) None two_handlers) matching_rows_0 =
       (t, w', (h', Okv (mkDataFrame ["a_left"; "a_right"] [0] [[PInt 0; PInt 0]])))) /\
  (exists t w' h',
     run answer (join 0 one_target (as_handler 1) (Some "test_join_into_mysql") two_handlers)
       matching_rows_0 =
       ((t ++ [CreateEngine "mysql://localhost:3306/test";
               ToSql (mkDataFrame ["a_left"; "a_right"] [0] [[PInt 0; PInt 0]])
                 "test_join_into_mysql" 1%nat])%list,
        w', (h', Okv (mkDataFrame ["a_left"; "a_right"] [0] [[PInt 0; PInt 0]])))).
Proof.
  split.
  - do 3 eexists.
    eapply (proj1 (join_steps answer 0 one_target (as_handler 1) None two_handlers
                     matching_rows_0 _ _ _ _ _ _ _ _ _ _ _
                     ltac:(reflexivity) ltac:(reflexivity) ltac:(reflexivity)
                     ltac:(reflexivity) ltac:(reflexivity))).
    reflexivity.
  - do 3 eexists.
    rewrite (proj2 (join_steps answer 0 one_target (as_handler 1)
                      (Some "test_join_into_mysql") two_handlers
                      matching_rows_0 _ _ _ _ _ _ _ _ _ _ _
                      ltac:(reflexivity) ltac:(reflexivity) ltac:(reflexivity)
                      ltac:(reflexivity) ltac:(reflexivity))
               "test_join_into_mysql" _ _ _ _ eq_refl ltac:(discriminate)
               ltac:(reflexivity)).
    rewrite app_assoc. reflexivity.
Defined.

(** C1 on the code. Two sources that each hold the one row (a = 1, b = 2),
    joined on the targets a and b: [DataFrame.join] matches the key columns
    of the left frame against the row labels of the right frame, which have
    one level, and raises; no merged row is returned. *)
Theorem join_two_targets_raises :
  snd (value_of answer (join 0 two_targets (as_handler 1) None two_handlers) matching_rows_ab)
  = Exn (ValueError "len(left_on) must equal the number of levels in the index of 'right'").
Proof. reflexivity. Qed.

(** With one target the key cell is looked up among the row labels 0, 1, ...
    of the right frame, not in its column: the rows (a = 5) and (a = 5) give
    a row without the right side, the rows (a = 0) and (a = 0) give both. *)
Example join_one_target_unmatched :
  snd (value_of answer (join 0 one_target (as_handler 1) None two_handlers) matching_rows_5)
  = Okv (mkDataFrame ["a_left"; "a_right"] [0] [[PInt 5; PNone]]).
Proof. reflexivity. Qed.

Example join_one_target_label_zero :
  snd (value_of answer (join 0 one_target (as_handler 1) None two_handlers) matching_rows_0)
  = Okv (mkDataFrame ["a_left"; "a_right"] [0] [[PInt 0; PInt 0]]).
Proof. reflexivity. Qed.

(** A handle that the probe found alive has been closed by the probe, and no
    connect follows: with this client the guarded block then fails at the
    cursor. *)
Example run_native_query_after_live_probe :
  snd (value_of answer (run_native_query 0 "SHOW TABLES;" one_handler) (mkClient true [] []))
  = Exn (Exception "Error: MySQL Connection not available.. Please check and retry!").
Proof. reflexivity. Qed.

(** * Further properties of the handler *)

Section Handler.
Context {world : Type}.
Variable oracle : world -> forall c : call, outcome (reply c) * world.

Ltac ask :=
  match goal with
  | |- context [oracle ?w ?c] => destruct (oracle w c) as [[?|?] ?]; simpl
  end.

Ltac open_guarded :=
  unfold guarded_query, query_block, try_except, bind, this, with_closing, on_conn,
    extern, ret, raise.

Lemma same_settings_refl o : same_settings o o.
Proof. by repeat split. Qed.

Lemma same_settings_set_connection c o : same_settings (set_connection c o) o.
Proof. by repeat split. Qed.

(** ** check_status *)

(** The probe closes the handle it probes: whatever [is_connected()] answers
    or raises, [close()] is called on the handle next, nothing else is
    called and the handler object is not changed. *)
Theorem check_status_closes_handle self h o c w :
  h !! self = Some o ->
  connection o = Some c ->
  trace_of oracle (check_status self h) w = [IsConnected c; Close c] /\
  fst (value_of oracle (check_status self h) w) = h.
Proof.
  intros H Hc. unfold trace_of, value_of.
  by rewrite (check_status_run oracle _ _ _ _ _ H Hc).
Qed.

(** ** connect *)


Lemma connect_config_keys o k :
  is_Some (connect_config o !! k) -> k ∈ connect_keywords.
Proof.
  unfold connect_config, connect_keywords. intros [v Hv].
  destruct (is_True (ssl o)), (is_not_None (ssl_ca o)), (is_not_None (ssl_cert o)),
    (is_not_None (ssl_key o));
    repeat (apply lookup_insert_Some in Hv as [[<- _]|[_ Hv]];
            [rewrite !elem_of_cons; tauto|]);
    by rewrite lookup_empty in Hv.
Qed.

(** [connect] passes no keyword but host, port, user, password,
    client_flags, ssl_ca, ssl_cert and ssl_key; in particular the database
    name is never part of the connection parameters. *)
Theorem connect_passes_no_database self h o w :
  h !! self = Some o ->
  exists config,
    trace_of oracle (connect self h) w = [MysqlConnect config] /\
    (forall k, is_Some (config !! k) -> k ∈ connect_keywords) /\
    config !! "database" = None.
Proof.
  intros H. exists (connect_config o). unfold trace_of.
  rewrite (connect_run oracle _ _ _ _ H). simpl. split; [done|].
  split; [apply connect_config_keys|].
  destruct (connect_config o !! "database") as [v|] eqn:E; [|done].
  assert (Hin : "database" ∈ connect_keywords) by (apply (connect_config_keys o); eauto).
  unfold connect_keywords in Hin.
  repeat (apply elem_of_cons in Hin as [Hin|Hin]; [discriminate|]).
  by apply elem_of_nil in Hin.
Qed.

(** ** __init__ *)


(** ** run_native_query *)

Lemma value_of_run {X} (p : io X) w t w' x :
  run oracle p w = (t, w', x) ->
  trace_of oracle p w = t /\ world_of oracle p w = w' /\ value_of oracle p w = x.
Proof. intros E. unfold trace_of, world_of, value_of. by rewrite E. Qed.

(** The only exceptions [run_native_query] lets out are the one of its own
    [connect] (when the probe did not report alive) and the [Exception]
    with the "Error: ... Please check and retry!" message: nothing raised
    inside the guarded block reaches the caller as it was raised. *)
Theorem run_native_query_failure_kinds self q h o w e :
  h !! self = Some o ->
  snd (value_of oracle (run_native_query self q h) w) = Exn e ->
  (value_of oracle (check_status self h) w = (h, Okv false) /\
   fst (oracle (world_of oracle (check_status self h) w)
          (MysqlConnect (connect_config o))) = Exn e) \/
  (exists e0, e = Exception (query_error_msg e0)).
Proof.
  intros H. destruct (check_status_total oracle self h w) as (alive & Hb & _).
  pose proof (run_native_query_unfold oracle self q h o w H) as Hu. cbv zeta in Hu.
  rewrite Hb in Hu. destruct alive.
  - destruct (value_of_run _ _ _ _ _ Hu) as (_ & _ & ->). intros He.
    right. by eapply guarded_query_wraps.
  - destruct (fst (oracle (world_of oracle (check_status self h) w)
                (MysqlConnect (connect_config o)))) as [c|e'].
    + destruct (value_of_run _ _ _ _ _ Hu) as (_ & _ & ->). intros He.
      right. by eapply guarded_query_wraps.
    + destruct (value_of_run _ _ _ _ _ Hu) as (_ & _ & ->). simpl. intros [= <-].
      by left.
Qed.

Lemma guarded_query_closes self q h o c w :
  h !! self = Some o ->
  connection o = Some c ->
  last (trace_of oracle (guarded_query self q h) w) = Some (Close c).
Proof.
  intros H Hc. unfold trace_of. open_guarded. rewrite H. simpl. rewrite Hc. simpl.
  repeat ask; reflexivity.
Qed.

(** Whenever a connection was obtained (the probe reported alive, or the
    connect succeeded), the last thing [run_native_query] does is to close
    the handle it holds, however the statement went. *)
Theorem run_native_query_closes_handle self q h o w :
  h !! self = Some o ->
  snd (value_of oracle (reconnect_if_needed self h) w) = Okv tt ->
  exists o1 c,
    fst (value_of oracle (run_native_query self q h) w) !! self = Some o1 /\
    connection o1 = Some c /\
    last (trace_of oracle (run_native_query self q h) w) = Some (Close c).
Proof.
  intros H. destruct (check_status_total oracle self h w) as (alive & Hb & Htrue).
  pose proof (run_native_query_unfold oracle self q h o w H) as Hu. cbv zeta in Hu.
  pose proof (reconnect_run oracle self h o w H) as Hr. cbv zeta in Hr.
  rewrite Hb in Hu, Hr. destruct alive.
  - intros _. destruct (Htrue eq_refl) as (o' & c & H' & Hc & _).
    rewrite H in H'. injection H' as <-.
    destruct (value_of_run _ _ _ _ _ Hu) as (-> & _ & ->).
    exists o, c. rewrite (proj2 (guarded_query_quiet oracle _ _ _ _)).
    split; [done|]. split; [done|].
    rewrite last_app. by rewrite (guarded_query_closes _ _ _ _ _ _ H Hc).
  - destruct (fst (oracle (world_of oracle (check_status self h) w)
                (MysqlConnect (connect_config o)))) as [c|e'].
    + intros _. destruct (value_of_run _ _ _ _ _ Hu) as (-> & _ & ->).
      assert (H1 : alter (set_connection c) self h !! self = Some (set_connection c o)).
      { by rewrite lookup_alter_eq, H. }
      exists (set_connection c o), c.
      rewrite (proj2 (guarded_query_quiet oracle _ _ _ _)).
      split; [done|]. split; [done|].
      rewrite last_app, last_cons.
      by rewrite (guarded_query_closes _ _ _ _ _ _ H1 eq_refl).
    + destruct (value_of_run _ _ _ _ _ Hr) as (_ & _ & ->). simpl. intros [=].
Qed.

(** [run_native_query] changes nothing in the store but the connection of
    [self]: the other attributes of [self] and all other objects are as
    before, whether the call returned or raised. *)
Theorem run_native_query_frame self q h o w :
  h !! self = Some o ->
  exists o1,
    fst (value_of oracle (run_native_query self q h) w) !! self = Some o1 /\
    same_settings o1 o /\
    forall other, other <> self ->
      fst (value_of oracle (run_native_query self q h) w) !! other = h !! other.
Proof.
  intros H. destruct (check_status_total oracle self h w) as (alive & Hb & _).
  pose proof (run_native_query_unfold oracle self q h o w H) as Hu. cbv zeta in Hu.
  rewrite Hb in Hu. destruct alive.
  - destruct (value_of_run _ _ _ _ _ Hu) as (_ & _ & ->).
    rewrite (proj2 (guarded_query_quiet oracle _ _ _ _)).
    exists o. split; [done|]. split; [apply same_settings_refl|done].
  - destruct (fst (oracle (world_of oracle (check_status self h) w)
                (MysqlConnect (connect_config o)))) as [c|e'].
    + destruct (value_of_run _ _ _ _ _ Hu) as (_ & _ & ->).
      rewrite (proj2 (guarded_query_quiet oracle _ _ _ _)).
      exists (set_connection c o). split; [by rewrite lookup_alter_eq, H|].
      split; [apply same_settings_set_connection|].
      intros other Hne. by rewrite lookup_alter_ne.
    + destruct (value_of_run _ _ _ _ _ Hu) as (_ & _ & ->). simpl.
      exists o. split; [done|]. split; [apply same_settings_refl|done].
Qed.

(** A statement with a result set: when the session works and [fetchall()]
    returns rows, [run_native_query] returns exactly those rows, after
    committing and closing. *)
Theorem run_native_query_returns_rows self q h w t1 w1 h1 o1 c cur w2 w3 w4 rows w5 w6 w7 :
  run oracle (reconnect_if_needed self h) w = (t1, w1, (h1, Okv tt)) ->
  h1 !! self = Some o1 ->
  connection o1 = Some c ->
  oracle w1 (Cursor c) = (Okv cur, w2) ->
  oracle w2 (Execute cur ("USE " +:+ py_str (database o1) +:+ ";")) = (Okv tt, w3) ->
  oracle w3 (Execute cur q) = (Okv tt, w4) ->
  oracle w4 (Fetchall cur) = (Okv rows, w5) ->
  oracle w5 (Commit c) = (Okv tt, w6) ->
  oracle w6 (Close c) = (Okv tt, w7) ->
  run oracle (run_native_query self q h) w =
    ((t1 ++ [Cursor c; Execute cur ("USE " +:+ py_str (database o1) +:+ ";");
             Execute cur q; Fetchall cur; Commit c; Close c])%list,
     w7, (h1, Okv (ResRows rows))).
Proof.
  intros Hr H Hc H1 H2 H3 H4 H5 H6. unfold run_native_query.
  eapply run_bind_ok; [exact Hr|].
  rewrite (guarded_query_fetch oracle _ _ _ _ _ _ _ _ _ _ H Hc H1 H2 H3). cbv zeta.
  rewrite H4. simpl. rewrite H5. simpl. by rewrite H6.
Qed.

(** A failing [commit()] discards what was fetched: the statement ran and
    its rows were read, yet the caller gets the wrapped exception. *)
Theorem run_native_query_commit_failure self q h w t1 w1 h1 o1 c cur w2 w3 w4 rows w5 e w6 :
  run oracle (reconnect_if_needed self h) w = (t1, w1, (h1, Okv tt)) ->
  h1 !! self = Some o1 ->
  connection o1 = Some c ->
  oracle w1 (Cursor c) = (Okv cur, w2) ->
  oracle w2 (Execute cur ("USE " +:+ py_str (database o1) +:+ ";")) = (Okv tt, w3) ->
  oracle w3 (Execute cur q) = (Okv tt, w4) ->
  oracle w4 (Fetchall cur) = (Okv rows, w5) ->
  oracle w5 (Commit c) = (Exn e, w6) ->
  run oracle (run_native_query self q h) w =
    ((t1 ++ [Cursor c; Execute cur ("USE " +:+ py_str (database o1) +:+ ";");
             Execute cur q; Fetchall cur; Commit c; Close c])%list,
     snd (oracle w6 (Close c)),
     (h1, Exn (Exception (query_error_msg
                            match fst (oracle w6 (Close c)) with
                            | Okv _ => e
                            | Exn ec => ec
                            end)))).
Proof.
  intros Hr H Hc H1 H2 H3 H4 H5. unfold run_native_query.
  eapply run_bind_ok; [exact Hr|].
  rewrite (guarded_query_fetch oracle _ _ _ _ _ _ _ _ _ _ H Hc H1 H2 H3). cbv zeta.
  rewrite H4. simpl. rewrite H5. simpl.
  by destruct (oracle w6 (Close c)) as [[[]|ec] w7].
Qed.

(** When selecting the database fails, the statement itself is never sent:
    after the failed [USE] only [close()] is called, and the caller gets the
    wrapped exception. *)
Theorem run_native_query_use_failure self q h w t1 w1 h1 o1 c cur w2 e w3 :
  run oracle (reconnect_if_needed self h) w = (t1, w1, (h1, Okv tt)) ->
  h1 !! self = Some o1 ->
  connection o1 = Some c ->
  oracle w1 (Cursor c) = (Okv cur, w2) ->
  oracle w2 (Execute cur ("USE " +:+ py_str (database o1) +:+ ";")) = (Exn e, w3) ->
  run oracle (run_native_query self q h) w =
    ((t1 ++ [Cursor c; Execute cur ("USE " +:+ py_str (database o1) +:+ ";"); Close c])%list,
     snd (oracle w3 (Close c)),
     (h1, Exn (Exception (query_error_msg
                            match fst (oracle w3 (Close c)) with
                            | Okv _ => e
                            | Exn ec => ec
                            end)))).
Proof.
  intros Hr H Hc H1 H2. unfold run_native_query.
  eapply run_bind_ok; [exact Hr|].
  open_guarded. rewrite H. simpl. rewrite Hc. simpl. rewrite H1. simpl. rewrite H2. simpl.
  by destruct (oracle w3 (Close c)) as [[[]|ec] w4].
Qed.

Lemma guarded_query_statements self q h o w cur s :
  h !! self = Some o ->
  Execute cur s ∈ trace_of oracle (guarded_query self q h) w ->
  s = use_statement o \/ s = q.
Proof.
  intros H. unfold trace_of, use_statement. open_guarded. rewrite H. simpl.
  destruct (connection o) as [c|]; simpl; [|by intros ?%elem_of_nil].
  repeat ask; rewrite ?elem_of_cons, elem_of_nil; intros Hin;
    repeat (destruct Hin as [Hin|Hin];
            [first [discriminate Hin | injection Hin as _ ->; auto]|]);
    done.
Qed.

Lemma check_status_statements self h w cur s :
  Execute cur s ∉ trace_of oracle (check_status self h) w.
Proof.
  unfold trace_of. destruct (h !! self) as [o|] eqn:H.
  - destruct (connection o) as [c|] eqn:Hc.
    + rewrite (check_status_run oracle _ _ _ _ _ H Hc). simpl.
      rewrite !elem_of_cons, elem_of_nil. by intros [?|[?|?]].
    + rewrite (check_status_run_unset oracle _ _ _ _ H Hc). apply not_elem_of_nil.
  - rewrite (check_status_run_dangling oracle _ _ _ H). apply not_elem_of_nil.
Qed.

Lemma run_native_query_statements self q h o w cur s :
  h !! self = Some o ->
  Execute cur s ∈ trace_of oracle (run_native_query self q h) w ->
  s = use_statement o \/ s = q.
Proof.
  intros H. destruct (check_status_total oracle self h w) as (alive & Hb & _).
  pose proof (run_native_query_unfold oracle self q h o w H) as Hu. cbv zeta in Hu.
  pose proof (check_status_statements self h w cur s) as Hp.
  rewrite Hb in Hu. destruct alive.
  - destruct (value_of_run _ _ _ _ _ Hu) as (-> & _ & _).
    rewrite elem_of_app. intros [?|Hg]; [done|].
    by apply (guarded_query_statements _ _ _ _ _ _ _ H Hg).
  - destruct (fst (oracle (world_of oracle (check_status self h) w)
                (MysqlConnect (connect_config o)))) as [c|e'].
    + destruct (value_of_run _ _ _ _ _ Hu) as (-> & _ & _).
      rewrite elem_of_app, elem_of_cons. intros [?|[?|Hg]]; [done|done|].
      assert (H1 : alter (set_connection c) self h !! self = Some (set_connection c o)).
      { by rewrite lookup_alter_eq, H. }
      by apply (guarded_query_statements _ _ _ _ _ _ _ H1 Hg).
    + destruct (value_of_run _ _ _ _ _ Hu) as (-> & _ & _).
      rewrite elem_of_app, elem_of_cons, elem_of_nil. by intros [?|[?|?]].
Qed.

(** ** get_tables, get_views, describe_table *)

(** Whatever the environment does, the only statements the three
    convenience methods ever send are the [USE] of the handler's database
    and their own text: "SHOW TABLES;", the view listing for the handler's
    database, and "DESCRIBE <table_name>;" with the name put in as given. *)
Theorem convenience_methods_statements self h o w table_name cur s :
  h !! self = Some o ->
  (Execute cur s ∈ trace_of oracle (get_tables self h) w ->
   s = use_statement o \/ s = "SHOW TABLES;") /\
  (Execute cur s ∈ trace_of oracle (get_views self h) w ->
   s = use_statement o \/
   s = "SHOW FULL TABLES IN " +:+ py_str (database o) +:+ " WHERE TABLE_TYPE LIKE 'VIEW';") /\
  (Execute cur s ∈ trace_of oracle (describe_table self table_name h) w ->
   s = use_statement o \/ s = "DESCRIBE " +:+ table_name +:+ ";").
Proof.
  intros H. split; [|split].
  - by apply run_native_query_statements.
  - replace (get_views self h) with
      (run_native_query self
         ("SHOW FULL TABLES IN " +:+ py_str (database o) +:+ " WHERE TABLE_TYPE LIKE 'VIEW';") h).
    + by apply run_native_query_statements.
    + unfold get_views, bind, this. by rewrite H.
  - by apply run_native_query_statements.
Qed.

(** ** select_into *)

(** [select_into] creates the engine and appends the frame, in this order,
    and returns [True]; when creating the engine or appending raises, it
    prints that error and raises the [Exception] naming the destination
    table (an exception of [print] itself would take its place); it never
    returns [False] and leaves the store alone. *)
Theorem select_into_outcomes self table df h o w :
  h !! self = Some o ->
  let create := CreateEngine (engine_url o) in
  let failure := Exception ("Could not select into table " +:+ table +:+ ", aborting.") in
  (forall eng w1 w2,
     oracle w create = (Okv eng, w1) ->
     oracle w1 (ToSql df table eng) = (Okv tt, w2) ->
     run oracle (select_into self table df h) w =
       ([create; ToSql df table eng], w2, (h, Okv true))) /\
  (forall e w1,
     oracle w create = (Exn e, w1) ->
     run oracle (select_into self table df h) w =
       ([create; Print (exc_msg e)], snd (oracle w1 (Print (exc_msg e))),
        (h, match fst (oracle w1 (Print (exc_msg e))) with
            | Okv _ => Exn failure
            | Exn e' => Exn e'
            end))) /\
  (forall eng w1 e w2,
     oracle w create = (Okv eng, w1) ->
     oracle w1 (ToSql df table eng) = (Exn e, w2) ->
     run oracle (select_into self table df h) w =
       ([create; ToSql df table eng; Print (exc_msg e)],
        snd (oracle w2 (Print (exc_msg e))),
        (h, match fst (oracle w2 (Print (exc_msg e))) with
            | Okv _ => Exn failure
            | Exn e' => Exn e'
            end))) /\
  snd (value_of oracle (select_into self table df h) w) <> Okv false.
Proof.
  intros H create failure. unfold value_of, create, failure.
  unfold select_into, try_except, bind, this, extern, ret, raise. rewrite H. simpl.
  repeat split.
  - intros eng w1 w2 H1 H2. rewrite H1. simpl. by rewrite H2.
  - intros e w1 H1. rewrite H1. simpl.
    by destruct (oracle w1 (Print (exc_msg e))) as [[[]|e'] w2].
  - intros eng w1 e w2 H1 H2. rewrite H1. simpl. rewrite H2. simpl.
    by destruct (oracle w2 (Print (exc_msg e))) as [[[]|e'] w3].
  - destruct (oracle w (CreateEngine (engine_url o))) as [[eng|e1] w1]; simpl.
    + destruct (oracle w1 (ToSql df table eng)) as [[[]|e2] w2]; simpl; [done|].
      by destruct (oracle w2 (Print (exc_msg e2))) as [[[]|e3] w3].
    + by destruct (oracle w1 (Print (exc_msg e1))) as [[[]|e3] w3].
Qed.

(** ** join *)

(** When the select on [self] raises, [join] raises the same exception and
    stops: the other handler is never queried and nothing is persisted. *)
Theorem join_left_failure self stmt data_handler into h w t1 w1 h1 e :
  run oracle (select_query self (targets stmt) (join_left (from_table stmt))
                (where_ stmt) h) w = (t1, w1, (h1, Exn e)) ->
  run oracle (join self stmt data_handler into h) w = (t1, w1, (h1, Exn e)).
Proof. intros Hl. unfold join. by eapply run_bind_exn. Qed.

(** When the select on the other handler raises, [join] raises the same
    exception after the two selects: nothing is joined or persisted. *)
Theorem join_right_failure self stmt data_handler into h w t1 w1 h1 local_result t2 w2 h2 e :
  run oracle (select_query self (targets stmt) (join_left (from_table stmt))
                (where_ stmt) h) w = (t1, w1, (h1, Okv local_result)) ->
  run oracle (dh_select_query data_handler (targets stmt) (join_right (from_table stmt))
                (where_ stmt) h1) w1 = (t2, w2, (h2, Exn e)) ->
  run oracle (join self stmt data_handler into h) w = ((t1 ++ t2)%list, w2, (h2, Exn e)).
Proof.
  intros Hl Hr. unfold join. eapply run_bind_ok; [exact Hl|]. by eapply run_bind_exn.
Qed.

(** When either side answers with the success flag [True] instead of rows,
    [join] raises [TypeError] after the two selects and persists nothing,
    whatever [into] is. *)
Theorem join_without_rows self stmt data_handler into h w
    t1 w1 h1 local_result t2 w2 h2 external_result :
  run oracle (select_query self (targets stmt) (join_left (from_table stmt))
                (where_ stmt) h) w = (t1, w1, (h1, Okv local_result)) ->
  run oracle (dh_select_query data_handler (targets stmt) (join_right (from_table stmt))
                (where_ stmt) h1) w1 = (t2, w2, (h2, Okv external_result)) ->
  local_result = ResTrue \/ external_result = ResTrue ->
  run oracle (join self stmt data_handler into h) w =
    ((t1 ++ t2)%list, w2, (h2, Exn (TypeError "object of type 'bool' has no len()"))).
Proof.
  intros Hl Hr Hres. unfold join.
  eapply run_bind_ok; [exact Hl|].
  replace t2 with (t2 ++ [])%list by by rewrite app_nil_r.
  eapply run_bind_ok; [exact Hr|].
  destruct local_result as [|rows_l]; [reflexivity|].
  destruct Hres as [[=]| ->]. reflexivity.
Qed.

Lemma position_None c l : c ∉ l -> position c l = None.
Proof.
  induction l as [|x l IH]; [done|]. rewrite not_elem_of_cons. intros [Hne Hl].
  simpl. destruct (decide (x = c)) as [->|_]; [done|]. by rewrite IH.
Qed.

(** With one target whose text is no column of the rows that [self]
    returned (an empty result has no columns at all), [join] raises
    [KeyError] for that text after the two selects and persists nothing. *)
Theorem join_missing_key self stmt data_handler into h w
    t1 w1 h1 rows_l t2 w2 h2 rows_r target :
  run oracle (select_query self (targets stmt) (join_left (from_table stmt))
                (where_ stmt) h) w = (t1, w1, (h1, Okv (ResRows rows_l))) ->
  run oracle (dh_select_query data_handler (targets stmt) (join_right (from_table stmt))
                (where_ stmt) h1) w1 = (t2, w2, (h2, Okv (ResRows rows_r))) ->
  targets stmt = [target] ->
  expr_str target ∉ record_labels rows_l ->
  run oracle (join self stmt data_handler into h) w =
    ((t1 ++ t2)%list, w2, (h2, Exn (KeyError (expr_str target)))).
Proof.
  intros Hl Hr Ht Hk. unfold join.
  eapply run_bind_ok; [exact Hl|].
  replace t2 with (t2 ++ [])%list by by rewrite app_nil_r.
  eapply run_bind_ok; [exact Hr|].
  rewrite Ht. unfold bind, ret. simpl. by rewrite (position_None _ _ Hk).
Qed.
(** ** select_query *)

Lemma py_last_same {A} (l1 l2 : list A) : last l1 = last l2 -> @py_last A l1 = py_last l2.
Proof.
  intros H. destruct (last l1) as [x|] eqn:E1.
  - rewrite (py_last_some _ _ E1). symmetry. by apply py_last_some.
  - apply last_None in E1 as ->. symmetry in H. by apply last_None in H as ->.
Qed.

(** Only the last part of the table reference counts: references that end
    in the same part are queried alike, so a database or schema qualifier
    in front of the table name has no effect on what is sent. *)
Theorem select_query_ignores_qualifier self (targets : list Expr) (from1 from2 : Identifier)
    (where_stmt : option Expr) :
  last (parts from1) = last (parts from2) ->
  select_query self targets from1 where_stmt = select_query self targets from2 where_stmt.
Proof. intros H. unfold select_query. by rewrite (py_last_same _ _ H). Qed.

(** A table reference without parts makes the indexing raise [IndexError]
    before the handler does anything: no probe, no connect, no statement. *)
Theorem select_query_empty_reference self (targets : list Expr) (from_stmt : Identifier)
    (where_stmt : option Expr) h w :
  parts from_stmt = [] ->
  run oracle (select_query self targets from_stmt where_stmt h) w =
    ([], w, (h, Exn (IndexError "list index out of range"))).
Proof. intros H. unfold select_query. by rewrite H. Qed.

(** A handler that holds no handle yet is not probed: the first call of
    [run_native_query] is the connect. *)
Theorem run_native_query_without_handle self q h o w :
  h !! self = Some o ->
  connection o = None ->
  exists rest,
    trace_of oracle (run_native_query self q h) w = MysqlConnect (connect_config o) :: rest.
Proof.
  intros H Hc.
  pose proof (run_native_query_unfold oracle self q h o w H) as Hu. cbv zeta in Hu.
  pose proof (check_status_run_unset oracle self h o w H Hc) as Hp.
  destruct (value_of_run _ _ _ _ _ Hp) as (Ht & Hw & Hv).
  rewrite Hv, Ht in Hu.
  destruct (fst (oracle (world_of oracle (check_status self h) w)
              (MysqlConnect (connect_config o)))) as [c|e];
    destruct (value_of_run _ _ _ _ _ Hu) as (-> & _ & _); by eexists.
Qed.
(** C4 on the code. A request with two or more targets: both selects are
    made and return rows, then [DataFrame.join] raises because the right
    frame's row labels have one level; nothing is merged, [select_into] is
    not called whatever [into] is, and no frame is returned. *)
Theorem join_several_targets_raises self stmt data_handler into h w
    t1 w1 h1 rows_l t2 w2 h2 rows_r :
  run oracle (select_query self (targets stmt) (join_left (from_table stmt))
                (where_ stmt) h) w = (t1, w1, (h1, Okv (ResRows rows_l))) ->
  run oracle (dh_select_query data_handler (targets stmt) (join_right (from_table stmt))
                (where_ stmt) h1) w1 = (t2, w2, (h2, Okv (ResRows rows_r))) ->
  (2 <= List.length (targets stmt))%nat ->
  run oracle (join self stmt data_handler into h) w =
    ((t1 ++ t2)%list, w2,
     (h2, Exn (ValueError
                 "len(left_on) must equal the number of levels in the index of 'right'"))).
Proof.
  intros Hl Hr Hn. unfold join.
  eapply run_bind_ok; [exact Hl|].
  replace t2 with (t2 ++ [])%list by by rewrite app_nil_r.
  eapply run_bind_ok; [exact Hr|].
  destruct (targets stmt) as [|a [|b l]]; simpl in Hn; [lia|lia|].
  reflexivity.
Qed.

End Handler.

(** ** The further properties on concrete inputs *)

Lemma check_status_closes_handle_witness :
  trace_of answer (check_status 0 one_handler) (mkClient true [] [])
    = [IsConnected 1%nat; Close 1%nat] /\
  fst (value_of answer (check_status 0 one_handler) (mkClient true [] [])) = one_handler.
Proof.
  apply (check_status_closes_handle answer 0 one_handler (example_handler (Some 1%nat))
           1%nat (mkClient true [] [])); reflexivity.
Defined.


Lemma connect_passes_no_database_witness :
  exists config,
    trace_of answer (connect 0 {[ 0%nat := tls_handler (PBool true) ]}) quiet_client
      = [MysqlConnect config] /\
    (forall k, is_Some (config !! k) -> k ∈ connect_keywords) /\
    config !! "database" = None.
Proof.
  apply (connect_passes_no_database answer 0 {[ 0%nat := tls_handler (PBool true) ]}
           (tls_handler (PBool true)) quiet_client).
  reflexivity.
Defined.

Lemma run_native_query_failure_kinds_witness :
  (value_of answer (check_status 0 one_handler) no_server = (one_handler, Okv false) /\
   fst (answer (world_of answer (check_status 0 one_handler) no_server)
          (MysqlConnect (connect_config (example_handler (Some 1%nat))))) = Exn cannot_connect) \/
  (exists e0, cannot_connect = Exception (query_error_msg e0)).
Proof.
  apply (run_native_query_failure_kinds answer 0 "SHOW TABLES;" one_handler
           (example_handler (Some 1%nat)) no_server cannot_connect); reflexivity.
Defined.

Lemma run_native_query_closes_handle_witness :
  exists o1 c,
    fst (value_of answer (run_native_query 0 "SELEC 1" one_handler) rejecting_client) !! 0%nat
      = Some o1 /\
    connection o1 = Some c /\
    last (trace_of answer (run_native_query 0 "SELEC 1" one_handler) rejecting_client)
      = Some (Close c).
Proof.
  apply (run_native_query_closes_handle answer 0 "SELEC 1" one_handler
           (example_handler (Some 1%nat)) rejecting_client); reflexivity.
Defined.

Lemma run_native_query_frame_witness :
  exists o1,
    fst (value_of answer (run_native_query 0 "SHOW TABLES;" two_handlers) quiet_client) !! 0%nat
      = Some o1 /\
    same_settings o1 (example_handler (Some 1%nat)) /\
    forall other, other <> 0%nat ->
      fst (value_of answer (run_native_query 0 "SHOW TABLES;" two_handlers) quiet_client)
        !! other = two_handlers !! other.
Proof.
  apply (run_native_query_frame answer 0 "SHOW TABLES;" two_handlers
           (example_handler (Some 1%nat)) quiet_client); reflexivity.
Defined.

Lemma run_native_query_returns_rows_witness :
  exists t w' h',
    run answer (run_native_query 0 "SELECT test_col FROM test_mdb" one_handler)
      answering_client = (t, w', (h', Okv (ResRows one_row))).
Proof.
  do 3 eexists.
  eapply (run_native_query_returns_rows answer 0 "SELECT test_col FROM test_mdb"
            one_handler answering_client);
    reflexivity.
Defined.

Lemma run_native_query_commit_failure_witness :
  exists t w' h',
    run answer (run_native_query 0 "SELECT test_col FROM test_mdb" one_handler)
      commit_failing_client =
      (t, w', (h', Exn (Exception
         "Error: 2013: Lost connection to MySQL server during query. Please check and retry!"))).
Proof.
  do 3 eexists.
  eapply (run_native_query_commit_failure answer 0 "SELECT test_col FROM test_mdb"
            one_handler commit_failing_client
            _ _ _ _ _ _ _ _ _ _ _ _ _
            ltac:(reflexivity) ltac:(reflexivity) ltac:(reflexivity) ltac:(reflexivity)
            ltac:(reflexivity) ltac:(reflexivity) ltac:(reflexivity) ltac:(reflexivity)).
Defined.

Lemma run_native_query_use_failure_witness :
  exists t w' h',
    run answer (run_native_query 0 "SHOW TABLES;" one_handler) use_failing_client =
      (t, w', (h', Exn (Exception
         "Error: 1049 (42000): Unknown database 'test'. Please check and retry!"))) /\
    forall cur, Execute cur "SHOW TABLES;" ∉ t.
Proof.
  do 3 eexists. split.
  - eapply (run_native_query_use_failure answer 0 "SHOW TABLES;" one_handler
              use_failing_client
              _ _ _ _ _ _ _ _ _
              ltac:(reflexivity) ltac:(reflexivity) ltac:(reflexivity) ltac:(reflexivity)
              ltac:(reflexivity)).
  - intros cur Hin. rewrite !elem_of_app, !elem_of_cons, !elem_of_nil in Hin.
    decompose [or] Hin; done.
Defined.

Lemma convenience_methods_statements_witness :
  (Execute 1%nat "DESCRIBE test_mdb;" ∈
     trace_of answer (describe_table 0 "test_mdb" one_handler) answering_client) /\
  ("DESCRIBE test_mdb;" = use_statement (example_handler (Some 1%nat)) \/
   "DESCRIBE test_mdb;" = "DESCRIBE " +:+ "test_mdb" +:+ ";").
Proof.
  assert (Hin : Execute 1%nat "DESCRIBE test_mdb;" ∈
     trace_of answer (describe_table 0 "test_mdb" one_handler) answering_client).
  { apply (list_elem_of_lookup_2 _ 5%nat). reflexivity. }
  split; [exact Hin|].
  exact (proj2 (proj2 (convenience_methods_statements answer 0 one_handler
           (example_handler (Some 1%nat)) answering_client "test_mdb" 1%nat
           "DESCRIBE test_mdb;" eq_refl)) Hin).
Defined.

Lemma select_into_outcomes_witness :
  run answer (select_into 0 "test_mdb2" (mkDataFrame ["test_col"] [0] [[PInt 1]]) one_handler)
    appending_client
  = ([CreateEngine "mysql://localhost:3306/test";
      ToSql (mkDataFrame ["test_col"] [0] [[PInt 1]]) "test_mdb2" 1%nat],
     mkClient false [] [], (one_handler, Okv true)) /\
  run answer (select_into 0 "test_mdb2" (mkDataFrame ["test_col"] [0] [[PInt 1]]) one_handler)
    engine_failing_client
  = ([CreateEngine "mysql://localhost:3306/test"; Print "Could not parse SQLAlchemy URL"],
     mkClient false [] [],
     (one_handler, Exn (Exception "Could not select into table test_mdb2, aborting."))) /\
  run answer (select_into 0 "test_mdb2" (mkDataFrame ["test_col"] [0] [[PInt 1]]) one_handler)
    append_failing_client
  = ([CreateEngine "mysql://localhost:3306/test";
      ToSql (mkDataFrame ["test_col"] [0] [[PInt 1]]) "test_mdb2" 1%nat;
      Print "1146: Table 'test.test_mdb2' doesn't exist"],
     mkClient false [] [],
     (one_handler, Exn (Exception "Could not select into table test_mdb2, aborting."))).
Proof.
  split; [|split].
  - exact (proj1 (select_into_outcomes answer 0 "test_mdb2"
             (mkDataFrame ["test_col"] [0] [[PInt 1]]) one_handler
             (example_handler (Some 1%nat)) appending_client eq_refl)
             1%nat _ _ eq_refl eq_refl).
  - exact (proj1 (proj2 (select_into_outcomes answer 0 "test_mdb2"
             (mkDataFrame ["test_col"] [0] [[PInt 1]]) one_handler
             (example_handler (Some 1%nat)) engine_failing_client eq_refl))
             _ _ eq_refl).
  - exact (proj1 (proj2 (proj2 (select_into_outcomes answer 0 "test_mdb2"
             (mkDataFrame ["test_col"] [0] [[PInt 1]]) one_handler
             (example_handler (Some 1%nat)) append_failing_client eq_refl)))
             1%nat _ _ _ eq_refl eq_refl).
Defined.

Lemma join_left_failure_witness :
  exists t w' h',
    run answer (join 0 one_target (as_handler 1) (Some "dest") two_handlers) rejecting_client
      = (t, w', (h', Exn (Exception
           "Error: 1064 (42000): You have an error in your SQL syntax. Please check and retry!"))).
Proof.
  do 3 eexists.
  eapply (join_left_failure answer 0 one_target (as_handler 1) (Some "dest") two_handlers
            rejecting_client).
  reflexivity.
Defined.

Lemma join_right_failure_witness :
  exists t w' h',
    run answer (join 0 one_target (as_handler 1) (Some "dest") two_handlers)
      right_failing_client
      = (t, w', (h', Exn (Exception
           "Error: 1064 (42000): You have an error in your SQL syntax. Please check and retry!"))).
Proof.
  do 3 eexists.
  eapply (join_right_failure answer 0 one_target (as_handler 1) (Some "dest") two_handlers
            right_failing_client); reflexivity.
Defined.

Lemma join_without_rows_witness :
  exists t w' h',
    run answer (join 0 one_target (as_handler 1) (Some "dest") two_handlers) quiet_client
      = (t, w', (h', Exn (TypeError "object of type 'bool' has no len()"))).
Proof.
  do 3 eexists.
  eapply (join_without_rows answer 0 one_target (as_handler 1) (Some "dest") two_handlers
            quiet_client _ _ _ _ _ _ _ _ ltac:(reflexivity) ltac:(reflexivity)).
  by left.
Defined.

Lemma join_missing_key_witness :
  exists t w' h',
    run answer (join 0 one_target (as_handler 1) (Some "dest") two_handlers) empty_left_client
      = (t, w', (h', Exn (KeyError "a"))).
Proof.
  do 3 eexists.
  eapply (join_missing_key answer 0 one_target (as_handler 1) (Some "dest") two_handlers
            empty_left_client _ _ _ _ _ _ _ _ (mkExpr "a")
            ltac:(reflexivity) ltac:(reflexivity) eq_refl).
  apply not_elem_of_nil.
Defined.

Lemma select_query_ignores_qualifier_witness :
  select_query 0 [mkExpr "test_col"] (mkIdentifier ["test"; "test_mdb"]) None =
  select_query 0 [mkExpr "test_col"] (mkIdentifier ["archive"; "test_mdb"]) None.
Proof.
  apply (select_query_ignores_qualifier 0 [mkExpr "test_col"]
           (mkIdentifier ["test"; "test_mdb"]) (mkIdentifier ["archive"; "test_mdb"]) None).
  reflexivity.
Defined.

Lemma select_query_empty_reference_witness :
  run answer (select_query 0 [mkExpr "test_col"] (mkIdentifier []) None one_handler)
    quiet_client
  = ([], quiet_client, (one_handler, Exn (IndexError "list index out of range"))).
Proof.
  apply (select_query_empty_reference answer 0 [mkExpr "test_col"] (mkIdentifier []) None
           one_handler quiet_client).
  reflexivity.
Defined.

Lemma run_native_query_without_handle_witness :
  exists rest,
    trace_of answer (run_native_query 0 "SHOW TABLES;" {[ 0%nat := example_handler None ]})
      quiet_client
    = MysqlConnect (connect_config (example_handler None)) :: rest.
Proof.
  apply (run_native_query_without_handle answer 0 "SHOW TABLES;"
           {[ 0%nat := example_handler None ]} (example_handler None) quiet_client);
    reflexivity.
Defined.

(** ** The two defects on concrete inputs *)

Lemma join_several_targets_raises_witness :
  exists t w' h',
    run answer (join 0 two_targets (as_handler 1) (Some "test_join_into_mysql") two_handlers)
      matching_rows_ab
    = (t, w', (h', Exn (ValueError
         "len(left_on) must equal the number of levels in the index of 'right'"))) /\
    forall url, CreateEngine url ∉ t.
Proof.
  do 3 eexists. split.
  - eapply (join_several_targets_raises answer 0 two_targets (as_handler 1)
              (Some "test_join_into_mysql") two_handlers matching_rows_ab
              _ _ _ _ _ _ _ _ ltac:(reflexivity) ltac:(reflexivity)).
    simpl. lia.
  - intros url Hin. rewrite !elem_of_app, !elem_of_cons, !elem_of_nil in Hin.
    decompose [or] Hin; done.
Defined.

(** C3 on the code. A handle that is open when [run_native_query] is called
    (as it is after the constructor has connected): the probe reports it
    alive and closes it, no connect follows, the cursor is refused on the
    closed handle and the call raises, whatever the statement is; no
    statement is sent and nothing is returned. *)
Theorem run_native_query_live_handle_raises self q h o c rs :
  h !! self = Some o ->
  connection o = Some c ->
  run answer (run_native_query self q h) (mkClient true [] rs) =
    ([IsConnected c; Close c; Cursor c; Close c], mkClient false [] rs,
     (h, Exn handle_closed_error)).
Proof.
  intros H Hc.
  unfold run_native_query, reconnect_if_needed, check_status, guarded_query, query_block,
    try_except, bind, this, with_closing, on_conn, extern, ret, raise.
  rewrite H. simpl. rewrite Hc. simpl. rewrite H. simpl. rewrite Hc. reflexivity.
Qed.

Lemma run_native_query_live_handle_raises_witness :
  run answer (run_native_query 0 "CREATE TABLE test_mdb (test_col INT)" one_handler)
    (mkClient true [] []) =
    ([IsConnected 1%nat; Close 1%nat; Cursor 1%nat; Close 1%nat], mkClient false [] [],
     (one_handler, Exn handle_closed_error)).
Proof.
  apply (run_native_query_live_handle_raises 0 "CREATE TABLE test_mdb (test_col INT)"
           one_handler (example_handler (Some 1%nat)) 1%nat []); reflexivity.
Defined.

(** The same from the start: a handler is constructed on a server that
    answers, and its first statement, a valid [CREATE TABLE], raises. *)
Example run_native_query_fresh_handler_raises :
  snd (value_of answer
         ((init 0 "test_handler" example_kwargs ;;;
           run_native_query 0 "CREATE TABLE test_mdb (test_col INT)") ∅)
         quiet_client)
  = Exn handle_closed_error.
Proof. reflexivity. Qed.

(** A key column of text against the integer row labels of a frame with
    rows is refused. *)
Example join_text_key_raises :
  snd (value_of answer (join 0 one_target (as_handler 1) (Some "dest") two_handlers)
         (mkClient false [] [ [[("a", PStr "x")]]; [[("a", PStr "x")]] ]))
  = Exn (ValueError
      "You are trying to merge on object and int64 columns. If you wish to proceed you should use pd.concat").
Proof. reflexivity. Qed.
